(** * A shallow embedding of simple-imdb-user-review-crawler

    The development follows
    [src/simple_imdb_user_review_crawler/_imdb_user_review_crawler.py]:
    the text helpers, the two regular expressions, the field extractor
    [parse_raw_item_to_imdb_user_review], the page parser
    [parse_raw_html_to_imdb_user_review_set_and_more_data] and the pagination
    driver [crawl_imdb_user_reviews_by_title_id].

    Conventions of the model.
    - A Python [str] is a [string] whose characters are the code points
      0..255; the character classes below are CPython's, restricted to that
      range.
    - A Python exception is a value [Raise e] of the type [Result]; process
      state that the code touches (the LC_TIME locale, the requests sent, the
      pages archived) is threaded explicitly through the monad [M].
    - Libraries the repository calls but does not contain (lxml's byte-level
      HTML parser, yarl's URL normaliser, the HTTP server, strptime under a
      locale other than "C") are variables of the sections below; what the
      source relies on from lxml's element API, XPath 1.0, [re], [int] and
      [datetime.strptime] under the "C" locale is written out. *)

From Stdlib Require Import ZArith Ascii String.
From Stdlib.Strings Require Import Byte.
From stdpp Require Import base option list gmap strings.

Local Open Scope Z_scope.

(** ** Exceptions and results *)

Inductive PyExn :=
| AttributeError
| TypeError
| ValueError
| ParserError
| TransportError.

Inductive Result (A : Type) :=
| Ok (a : A)
| Raise (e : PyExn).
Arguments Ok {A} a.
Arguments Raise {A} e.

Definition is_ok {A} (r : Result A) : bool :=
  match r with Ok _ => true | Raise _ => false end.

#[global] Instance Result_ret : MRet Result := fun A a => Ok a.
#[global] Instance Result_bind : MBind Result := fun A B f r =>
  match r with
  | Ok a => f a
  | Raise e => Raise e
  end.
#[global] Instance Result_fmap : FMap Result := fun A B f r =>
  match r with
  | Ok a => Ok (f a)
  | Raise e => Raise e
  end.

(** The value of [o], or the exception [e] when there is none. *)
Definition as_result {A} (e : PyExn) (o : option A) : Result A :=
  match o with
  | Some a => Ok a
  | None => Raise e
  end.

(** ** Python strings *)

Module Str.

Definition code (c : ascii) : Z := Z.of_N (N_of_ascii c).

(** [str.isspace] on one character, which is also [\s] of a [str]
    pattern. *)
Definition isspace (c : ascii) : bool :=
  let n := code c in
  ((9 <=? n) && (n <=? 13)) || ((28 <=? n) && (n <=? 32))
  || (n =? 133) || (n =? 160).

(** [\d] of a [str] pattern: the decimal digits. *)
Definition isdecimal (c : ascii) : bool :=
  let n := code c in (48 <=? n) && (n <=? 57).

(** [str.lower] on one character. *)
Definition lower (c : ascii) : ascii :=
  let n := code c in
  if ((65 <=? n) && (n <=? 90))
     || ((192 <=? n) && (n <=? 222) && negb (n =? 215))
  then ascii_of_N (Z.to_N (n + 32))
  else c.

(** White space of XML, as XPath's [normalize-space] sees it. *)
Definition is_xml_space (c : ascii) : bool :=
  let n := code c in
  (n =? 32) || (n =? 9) || (n =? 10) || (n =? 13).

Fixpoint drop_while (p : ascii -> bool) (s : string) : string :=
  match s with
  | EmptyString => EmptyString
  | String c s' => if p c then drop_while p s' else s
  end.

Definition lstrip (s : string) : string := drop_while isspace s.
Definition rstrip (s : string) : string :=
  String.rev (drop_while isspace (String.rev s)).
(** [s.strip()] *)
Definition strip (s : string) : string := rstrip (lstrip s).

(** [sep.join(l)] *)
Fixpoint join (sep : string) (l : list string) : string :=
  match l with
  | [] => EmptyString
  | [x] => x
  | x :: rest => x +:+ sep +:+ join sep rest
  end.

(** [s.split(c)] for a separator of one character. *)
Fixpoint split_go (sep : ascii) (cur : string) (s : string) : list string :=
  match s with
  | EmptyString => [String.rev cur]
  | String c s' =>
      if Ascii.eqb c sep
      then String.rev cur :: split_go sep EmptyString s'
      else split_go sep (String c cur) s'
  end.
Definition split (sep : ascii) (s : string) : list string :=
  split_go sep EmptyString s.

(** [s.replace(c, "")] for a single character [c]. *)
Fixpoint remove (c : ascii) (s : string) : string :=
  match s with
  | EmptyString => EmptyString
  | String d s' => if Ascii.eqb d c then remove c s' else String d (remove c s')
  end.

Fixpoint prefix (p s : string) : bool :=
  match p, s with
  | EmptyString, _ => true
  | String a p', String b s' => Ascii.eqb a b && prefix p' s'
  | String _ _, EmptyString => false
  end.

(** XPath's [contains(s, sub)]. *)
Fixpoint contains (s sub : string) : bool :=
  prefix sub s ||
  match s with
  | EmptyString => false
  | String _ s' => contains s' sub
  end.

(** The first [n] characters. *)
Fixpoint take (n : nat) (s : string) : string :=
  match n, s with
  | S n', String c s' => String c (take n' s')
  | _, _ => EmptyString
  end.

(** XPath's [normalize-space]: the words of the string, separated by
    white space of XML, joined by single spaces. *)
Fixpoint xml_words_go (cur : option string) (s : string) : list string :=
  match s with
  | EmptyString => option_list (String.rev <$> cur)
  | String a s' =>
      if is_xml_space a
      then option_list (String.rev <$> cur) ++ xml_words_go None s'
      else xml_words_go (Some (from_option (String a) (String a "") cur)) s'
  end.
Definition normalize_space (s : string) : string :=
  join " " (xml_words_go None s).

Definition digit_value (c : ascii) : Z := code c - 48.

(** The letters of ASCII, and its letters and digits. *)
Definition is_ascii_alpha (c : ascii) : bool :=
  ((65 <=? code c) && (code c <=? 90)) || ((97 <=? code c) && (code c <=? 122)).
Definition is_ascii_alnum (c : ascii) : bool :=
  is_ascii_alpha c || ((48 <=? code c) && (code c <=? 57)).

Definition digit_char (d : Z) : ascii := ascii_of_N (Z.to_N (48 + d)).

(** The decimal numeral of [n] on exactly [w] digits, as ["%0wd"] prints
    a number below [10^w]. *)
Fixpoint zfill (w : nat) (n : Z) : string :=
  match w with
  | O => EmptyString
  | S w' => zfill w' (n / 10) +:+ String (digit_char (n mod 10)) EmptyString
  end.

(** The digits of a decimal literal, where single underscores may
    separate digits. [after_digit] tells whether the previous character was
    a digit. *)
Fixpoint int_digits (acc : Z) (after_digit : bool) (s : string) : option Z :=
  match s with
  | EmptyString => if after_digit then Some acc else None
  | String c s' =>
      if isdecimal c then int_digits (10 * acc + digit_value c) true s'
      else if Ascii.eqb c "_" && after_digit then int_digits acc false s'
      else None
  end.

(** [int(s)]: surrounding white space, an optional sign, decimal digits.
    [None] stands for the [ValueError] that [int] raises. (The limit that
    recent CPython versions put on the number of digits is not
    modelled.) *)
Definition to_int (s : string) : option Z :=
  match strip s with
  | String "+" body => int_digits 0 false body
  | String "-" body => Z.opp <$> int_digits 0 false body
  | body => int_digits 0 false body
  end.

End Str.

(** ** Regular expressions

    The part of [re] the two patterns of the module and strptime's pattern
    are written in, with the backtracking order of [re.match]: alternatives
    left to right, repetitions greedy. *)

Inductive regex :=
| Empty_re
| Char_re (p : ascii -> bool)
| Seq_re (r1 r2 : regex)
| Alt_re (r1 r2 : regex)
| Star_re (r : regex)
| Group_re (name : string) (r : regex).

Module Re.

(** What has been consumed between the input [s] and its suffix [rest]. *)
Definition consumed (s rest : string) : string :=
  Str.take (String.length s - String.length rest)%nat s.

(** [run r s g k] matches [r] at the start of [s] and hands the rest of
    the input and the groups to the continuation [k]; when [k] fails the
    next alternative is tried. A repetition stops when its body consumes
    nothing (none of the patterns below has such a body). *)
Fixpoint run {R} (r : regex) (s : string) (g : gmap string string)
    (k : string -> gmap string string -> option R) : option R :=
  match r with
  | Empty_re => k s g
  | Char_re p =>
      match s with
      | String c s' => if p c then k s' g else None
      | EmptyString => None
      end
  | Seq_re r1 r2 => run r1 s g (fun s' g' => run r2 s' g' k)
  | Alt_re r1 r2 =>
      match run r1 s g k with
      | Some x => Some x
      | None => run r2 s g k
      end
  | Star_re r1 =>
      (fix loop (n : nat) (s : string) (g : gmap string string) : option R :=
         match n with
         | O => k s g
         | S n' =>
             match run r1 s g (fun s' g' =>
                      if (String.length s' <? String.length s)%nat
                      then loop n' s' g' else None) with
             | Some x => Some x
             | None => k s g
             end
         end) (String.length s) s g
  | Group_re name r1 =>
      run r1 s g (fun s' g' => k s' (<[name := consumed s s']> g'))
  end.

(** [pattern.match(s)]: the groups ([groupdict()]) and the unmatched rest
    of the input ([s[m.end():]]), or [None]. *)
Definition match_ (r : regex) (s : string)
  : option (gmap string string * string) :=
  run r s ∅ (fun rest g => Some (g, rest)).

Definition plus (r : regex) : regex := Seq_re r (Star_re r).
Definition opt (r : regex) : regex := Alt_re r Empty_re.

Fixpoint seq (l : list regex) : regex :=
  match l with
  | [] => Empty_re
  | [r] => r
  | r :: l' => Seq_re r (seq l')
  end.

Fixpoint alt (r : regex) (l : list regex) : regex :=
  match l with
  | [] => r
  | r' :: l' => Alt_re r (alt r' l')
  end.

(** A literal character, and a literal under [re.IGNORECASE]. *)
Definition chr (c : ascii) : regex := Char_re (Ascii.eqb c).
Definition chr_i (c : ascii) : regex :=
  Char_re (fun d => Ascii.eqb (Str.lower d) (Str.lower c)).

Fixpoint lit_i (s : string) : regex :=
  match s with
  | EmptyString => Empty_re
  | String c EmptyString => chr_i c
  | String c s' => Seq_re (chr_i c) (lit_i s')
  end.

Definition range (lo hi : ascii) : regex :=
  Char_re (fun c => (Str.code lo <=? Str.code c) && (Str.code c <=? Str.code hi)).

Definition digit : regex := Char_re Str.isdecimal.                 (* \d *)
Definition non_digit : regex := Char_re (fun c => negb (Str.isdecimal c)). (* \D *)
Definition space : regex := Char_re Str.isspace.                   (* \s *)
Definition dot : regex := Char_re (fun c => negb (Ascii.eqb c "010")). (* . *)

End Re.


(** ** The patterns of the module *)

(** A number with thousands separators: [\d{1,3}] followed by any number
    of groups [,\d{3}]. *)
Definition thousands_re : regex :=
  Seq_re
    (Seq_re Re.digit (Re.opt (Seq_re Re.digit (Re.opt Re.digit))))
    (Star_re (Re.seq [Re.chr ","; Re.digit; Re.digit; Re.digit])).

(** Any non-digits, the group [helpful] (a number with thousands
    separators), [\s+out\s+of\s+], the group [total] (such a number again),
    [\s+found\s+this\s+helpful] and any characters up to the end of the
    line; compiled with [re.IGNORECASE]. *)
Definition FOUND_HELPFUL_REGEX : regex :=
  Re.seq
    [ Star_re Re.non_digit;
      Group_re "helpful" thousands_re;
      Re.plus Re.space; Re.lit_i "out";
      Re.plus Re.space; Re.lit_i "of";
      Re.plus Re.space;
      Group_re "total" thousands_re;
      Re.plus Re.space; Re.lit_i "found";
      Re.plus Re.space; Re.lit_i "this";
      Re.plus Re.space; Re.lit_i "helpful";
      Star_re Re.dot ].

(** Any non-digits, a slash, the group [maximum_rating] ([\d+]), any
    non-digits. *)
Definition MAXIMUM_RATING_REGEX : regex :=
  Re.seq
    [ Star_re Re.non_digit;
      Re.chr "/";
      Group_re "maximum_rating" (Re.plus Re.digit);
      Star_re Re.non_digit ].

(** ** Dates: [datetime.strptime(s, "%d %B %Y")] under the "C" locale *)

Module Datetime.

(** [calendar.month_name[1:]] of the "C" locale, lower-cased as
    [_strptime.LocaleTime] keeps it. *)
Definition f_month : list string :=
  [ "january"; "february"; "march"; "april"; "may"; "june"; "july";
    "august"; "september"; "october"; "november"; "december" ].

(** The directive [%d]: "(?P<d>3[0-1]|[1-2]\d|0[1-9]|[1-9]| [1-9])". *)
Definition directive_d : regex :=
  Group_re "d"
    (Re.alt (Seq_re (Re.chr "3") (Re.range "0" "1"))
       [ Seq_re (Re.range "1" "2") Re.digit;
         Seq_re (Re.chr "0") (Re.range "1" "9");
         Re.range "1" "9";
         Seq_re (Re.chr " ") (Re.range "1" "9") ]).

(** The directive [%B]: the month names as alternatives, the longest
    first, which is the order [_strptime] sorts them in. *)
Definition directive_B : regex :=
  Group_re "B"
    (Re.alt (Re.lit_i "september")
       (Re.lit_i <$>
          [ "february"; "november"; "december"; "january"; "october";
            "august"; "march"; "april"; "june"; "july"; "may" ])).

(** The directive [%Y]: "(?P<Y>\d\d\d\d)". *)
Definition directive_Y : regex :=
  Group_re "Y" (Re.seq [Re.digit; Re.digit; Re.digit; Re.digit]).

(** The pattern of the format ["%d %B %Y"]: each blank of the format
    stands for [\s+]; the whole is compiled with [re.IGNORECASE]. *)
Definition format_regex : regex :=
  Re.seq [ directive_d; Re.plus Re.space; directive_B; Re.plus Re.space;
           directive_Y ].

Fixpoint index_of (x : string) (l : list string) : option Z :=
  match l with
  | [] => None
  | y :: l' => if String.eqb x y then Some 0 else Z.succ <$> index_of x l'
  end.

Fixpoint lower (s : string) : string :=
  match s with
  | EmptyString => EmptyString
  | String c s' => String (Str.lower c) (lower s')
  end.

Definition is_leap (y : Z) : bool :=
  (y mod 4 =? 0) && (negb (y mod 100 =? 0) || (y mod 400 =? 0)).

Definition days_in_month (y m : Z) : Z :=
  if m =? 2 then (if is_leap y then 29 else 28)
  else if (m =? 4) || (m =? 6) || (m =? 9) || (m =? 11) then 30
  else 31.

(** [date(year, month, day)] raises [ValueError] outside these bounds. *)
Definition valid_date (y m d : Z) : bool :=
  (1 <=? y) && (y <=? 9999) && (1 <=? m) && (m <=? 12)
  && (1 <=? d) && (d <=? days_in_month y m).

(** [datetime.strptime(s, "%d %B %Y")] under the "C" locale: year, month
    and day, or [None] for the [ValueError] raised when the text does not
    match, when text remains after the match, or when the day does not exist
    in the month. *)
Definition strptime_C (s : string) : option (Z * Z * Z) :=
  '(g, rest) ← Re.match_ format_regex s;
  guard (rest = EmptyString);;
  d ← g !! "d" ≫= Str.to_int;
  m ← g !! "B" ≫= (fun b => index_of (lower b) f_month);
  y ← g !! "Y" ≫= Str.to_int;
  guard (valid_date y (m + 1) d = true);;
  Some (y, m + 1, d).

(** [date(year, month, day).isoformat()] *)
Definition isoformat (ymd : Z * Z * Z) : string :=
  let '(y, m, d) := ymd in
  Str.zfill 4 y +:+ "-" +:+ Str.zfill 2 m +:+ "-" +:+ Str.zfill 2 d.

End Datetime.

(** ** The element tree of lxml *)

(** An element with its tag, attributes, [text], children and [tail]. A
    comment or processing instruction is a node whose tag is not a string
    ([None] here); its [text] is its content and it has no children. *)
Inductive HtmlElement :=
| Element (tag : option string) (attrib : gmap string string)
    (text : option string) (children : list HtmlElement)
    (tail : option string).

Definition tag (e : HtmlElement) : option string :=
  match e with Element t _ _ _ _ => t end.
Definition attrib (e : HtmlElement) : gmap string string :=
  match e with Element _ a _ _ _ => a end.
Definition text (e : HtmlElement) : option string :=
  match e with Element _ _ t _ _ => t end.
Definition children (e : HtmlElement) : list HtmlElement :=
  match e with Element _ _ _ c _ => c end.
Definition tail (e : HtmlElement) : option string :=
  match e with Element _ _ _ _ t => t end.

(** A reference to an element inside a parsed document, as Python code
    holds it: the root element of the document, the element's preceding
    siblings (the nearest first) and the element. *)
Record Node := {
  document : HtmlElement;
  before : list HtmlElement;
  element : HtmlElement;
}.

(** [node.getprevious()] *)
Definition getprevious (n : Node) : option Node :=
  match before n with
  | [] => None
  | p :: rest => Some {| document := document n; before := rest; element := p |}
  end.

(** What an XPath expression of the module selects: elements or text
    nodes. *)
Inductive XNode :=
| XElement (n : Node)
| XText (s : string).

Definition text_node (o : option string) : list XNode :=
  match o with
  | Some EmptyString | None => []
  | Some s => [XText s]
  end.

(** The nodes below [e] in document order. With [inside] false only the
    nodes lying strictly inside some descendant of [e] that satisfies [m]
    are listed; with [inside] true, all of them. *)
Fixpoint walk (doc : HtmlElement) (m : HtmlElement -> bool) (inside : bool)
    (e : HtmlElement) : list XNode :=
  match e with
  | Element tg _ tx cs _ =>
      (if inside && bool_decide (is_Some tg) then text_node tx else [])
      ++ (fix go (prev : list HtmlElement) (cs : list HtmlElement) : list XNode :=
            match cs with
            | [] => []
            | c :: cs' =>
                (if inside
                 then [XElement {| document := doc; before := prev; element := c |}]
                 else [])
                ++ walk doc m (inside || m c) c
                ++ (if inside then text_node (tail c) else [])
                ++ go (c :: prev) cs'
            end) [] cs
  end.

(** ** XPath

    The module builds its XPath expressions with one function; an
    expression is kept here as the arguments it was built from, and [xpath]
    below evaluates it. *)
Inductive XPath :=
| Descendant_contains (is_relative : bool) (node_type attribute target : string)
    (retrieve_texts : bool)
| Anchors_with_href_below (q : XPath).

(** The expression [{relative}//descendant::{node_type}[contains(concat(" ",
    normalize-space(@{attribute}), " "), " {target} ")]{texts}]. *)
Definition xpath_descendant_contains_target_attribute_builder
    (node_type attribute target : string)
    (is_relative : bool) (retrieve_texts : bool) : XPath :=
  Descendant_contains is_relative node_type attribute target retrieve_texts.

(** The node test and the predicate of such an expression on one element;
    an attribute that is absent counts as the empty string. The source
    formats its arguments into the text of the expression, so this is what
    the expression means when the node type and the attribute are names (no
    wildcard, no axis, no namespace prefix) and the target has no double
    quote, as with every argument the module passes: the tags a, div and
    span, the attributes class and itemprop, and class names of letters and
    hyphens. *)
Definition has_token (node_type attribute target : string) (e : HtmlElement)
  : bool :=
  bool_decide (tag e = Some node_type)
  && Str.contains
       (" " +:+ Str.normalize_space (default "" (attrib e !! attribute)) +:+ " ")
       (" " +:+ target +:+ " ").

Definition nodes (l : list XNode) : list Node :=
  omap (fun x => match x with XElement n => Some n | XText _ => None end) l.

Definition strings (l : list XNode) : list string :=
  omap (fun x => match x with XText s => Some s | XElement _ => None end) l.

(** The anchors selected by [a[string(@href)]]. *)
Definition is_anchor_with_href (n : Node) : bool :=
  bool_decide (tag (element n) = Some "a")
  && negb (bool_decide (default "" (attrib (element n) !! "href") = "")).

(** [n.xpath(q)], in document order. A relative expression looks at the
    proper descendants of [n]; an absolute one starts at the document node,
    so it looks at every element of the document [n] belongs to. The nodes
    selected by [//text()] and by [/.//a[...]] after the first step are
    those lying strictly inside a selected element. *)
Definition xpath (n : Node) (q : XPath) : list XNode :=
  let doc := document n in
  let top := {| document := doc; before := []; element := doc |} in
  let selected rel nt attr tg :=
    filter (fun c => has_token nt attr tg (element c) = true)
      (if rel : bool
       then nodes (walk doc (fun _ => false) true (element n))
       else top :: nodes (walk doc (fun _ => false) true doc)) in
  let below rel nt attr tg :=
    if rel : bool
    then walk doc (has_token nt attr tg) false (element n)
    else walk doc (has_token nt attr tg) (has_token nt attr tg doc) doc in
  match q with
  | Descendant_contains rel nt attr tg false => XElement <$> selected rel nt attr tg
  | Descendant_contains rel nt attr tg true => XText <$> strings (below rel nt attr tg)
  | Anchors_with_href_below (Descendant_contains rel nt attr tg false) =>
      XElement <$>
        filter (fun c => is_anchor_with_href c = true) (nodes (below rel nt attr tg))
  | Anchors_with_href_below _ => []
  end.

(** ** URLs

    A [yarl.URL] by its parts. The percent-encoding and the removal of dot
    segments that yarl applies to a path are not modelled: paths and query
    values are kept as given. *)
Record URL := {
  scheme : string;
  host : string;
  path : string;
  query : list (string * string);
}.

(** [url.with_path(p)]: the path replaced, the query dropped. yarl also
    quotes the characters of [p] that a path may not hold and removes its
    dot segments; [p] is kept as it is here, which is what yarl gives for a
    path of slashes and segments of ASCII letters, digits, hyphens and
    underscores. *)
Definition with_path (u : URL) (p : string) : URL :=
  {| scheme := scheme u; host := host u;
     path := match p with
             | EmptyString => p
             | String c _ => if Ascii.eqb c "/" then p else "/" +:+ p
             end;
     query := [] |}.

(** [url.with_query(d)] for a dict [d], given by its items in order. *)
Definition with_query (u : URL) (q : list (string * string)) : URL :=
  {| scheme := scheme u; host := host u; path := path u; query := q |}.

Definition BASE_IMDB_URL : URL :=
  {| scheme := "https"; host := "www.imdb.com"; path := "/"; query := [] |}.

(** [RELATIVE_IMDB_USER_REVIEWS_URL.format(title_id=title_id)] *)
Definition RELATIVE_IMDB_USER_REVIEWS_URL (title_id : string) : string :=
  "/title/" +:+ title_id +:+ "/reviews".

(** ** The world and the monad of effects *)

Record Response := {
  status_code : Z;
  content_bytes : list byte;
  encoding : string;
}.

(** The state outside the program that the code reads or writes: the
    LC_TIME locale of the process, the requests sent so far (the oldest
    first) and the pages written to the archive directory, each under its
    page number. *)
Record World := {
  lc_time : string;
  requests : list URL;
  archive : list (Z * list byte);
}.

Definition M (A : Type) : Type := World -> Result A * World.

#[global] Instance M_ret : MRet M := fun A a w => (Ok a, w).
#[global] Instance M_bind : MBind M := fun A B f m w =>
  match m w with
  | (Ok a, w') => f a w'
  | (Raise e, w') => (Raise e, w')
  end.

#[global] Instance M_fmap : FMap M := fun A B f m w =>
  match m w with
  | (Ok a, w') => (Ok (f a), w')
  | (Raise e, w') => (Raise e, w')
  end.

Definition raise {A} (e : PyExn) : M A := fun w => (Raise e, w).

Definition lift {A} (r : Result A) : M A := fun w => (r, w).

(** The value of [o], or the exception [e] raised when there is none. *)
Definition or_raise {A} (e : PyExn) (o : option A) : M A :=
  match o with
  | Some a => mret a
  | None => raise e
  end.

(** [locale.setlocale(locale.LC_TIME, name)] *)
Definition setlocale_LC_TIME (name : string) : M unit := fun w =>
  (Ok tt, {| lc_time := name; requests := requests w; archive := archive w |}).

(** [page_file.write(raw_html)] on the page numbered [page_count]. *)
Definition write_page (page_count : Z) (raw_html : list byte) : M unit := fun w =>
  (Ok tt, {| lc_time := lc_time w; requests := requests w;
             archive := archive w ++ [(page_count, raw_html)] |}).

(** A [for] loop over [l] whose body updates the loop state [s] and may
    raise. *)
Fixpoint for_each {A S} (l : list A) (body : S -> A -> M S) (s : S) : M S :=
  match l with
  | [] => mret s
  | x :: l' => s' ← body s x; for_each l' body s'
  end.

(** ** The review record *)

Record IMDbUserReview := {
  review_id : option string;
  review_date : option string;
  review_title : option string;
  title_id : string;
  title_name : option string;
  title_relative_url : option string;
  total_feedback : option Z;
  helpful_feedback : option Z;
  maximum_rating : option Z;
  user_rating : option Z;
  has_spoilers : bool;
  user_name : option string;
  user_relative_url : option string;
  content : option string;
}.

#[global] Instance IMDbUserReview_eq_dec : EqDecision IMDbUserReview.
Proof. solve_decision. Defined.

(** [as_tuple]: the values of the fields in the order of their
    declaration, each a string, an integer or a truth value. *)
Definition as_tuple (r : IMDbUserReview)
  : list (option string + option Z + bool) :=
  [ inl (inl (review_id r)); inl (inl (review_date r));
    inl (inl (review_title r)); inl (inl (Some (title_id r)));
    inl (inl (title_name r)); inl (inl (title_relative_url r));
    inl (inr (total_feedback r)); inl (inr (helpful_feedback r));
    inl (inr (maximum_rating r)); inl (inr (user_rating r));
    inr (has_spoilers r); inl (inl (user_name r));
    inl (inl (user_relative_url r)); inl (inl (content r)) ].

Definition of_tuple (t : list (option string + option Z + bool))
  : option IMDbUserReview :=
  match t with
  | [ inl (inl a); inl (inl b); inl (inl c); inl (inl (Some d));
      inl (inl e); inl (inl f); inl (inr g); inl (inr h);
      inl (inr i); inl (inr j); inr k; inl (inl l);
      inl (inl m); inl (inl n) ] =>
      Some {| review_id := a; review_date := b; review_title := c;
              title_id := d; title_name := e; title_relative_url := f;
              total_feedback := g; helpful_feedback := h;
              maximum_rating := i; user_rating := j; has_spoilers := k;
              user_name := l; user_relative_url := m; content := n |}
  | _ => None
  end.

(** Records are hashed and compared by their fields, which is what makes a
    Python [set] of them a finite set here. *)
#[global] Instance IMDbUserReview_countable : Countable IMDbUserReview.
Proof. apply (inj_countable as_tuple of_tuple). by intros []. Defined.

(** ** The helpers of the module *)

(** Python's truth value of an optional string. *)
Definition truthy (o : option string) : bool :=
  match o with
  | Some EmptyString | None => false
  | Some _ => true
  end.

Definition normalize_text (raw_str_list : list string) : string :=
  let clean_lines :=
    filter (fun clean_line => clean_line ≠ EmptyString)
      (Str.strip <$> raw_str_list) in
  Str.join (String "010" EmptyString) clean_lines.

(** [key in target_dict and target_dict[key]], then [value if value else
    None]: the empty string counts as no value. *)
Definition valid_value_from_dict (target_dict : gmap string string)
    (key : string) : option string :=
  match target_dict !! key with
  | Some value => if truthy (Some value) then Some value else None
  | None => None
  end.

Section Crawler.

(** [str(yarl.URL(input_str).with_query(None))]: yarl parses the text as a
    URL, or raises. *)
Variable build_queryless_url_str_from_str : string -> Result string.

(** [datetime.strptime(s, "%d %B %Y")] when the LC_TIME locale is the one
    named by the first argument, which is not "C". *)
Variable strptime_in_locale : string -> string -> Result (Z * Z * Z).

(** [html.fromstring(raw_html, parser=html.HTMLParser(encoding=...))]: the
    element lxml returns, inside the document it has parsed. *)
Variable html_fromstring : list byte -> string -> Result Node.

(** [client.get(url, timeout=2.0)], given the number of requests sent
    before this one: a response, or an exception of the transport. *)
Variable client_get : nat -> URL -> Result Response.

(** [datetime.strptime(s, "%d %B %Y")]: the month names are those of the
    LC_TIME locale of the process. *)
Definition strptime (s : string) : M (Z * Z * Z) := fun w =>
  (if bool_decide (lc_time w = "C")
   then from_option Ok (Raise ValueError) (Datetime.strptime_C s)
   else strptime_in_locale (lc_time w) s, w).

Definition parse_raw_item_to_imdb_user_review
    (title_id : string) (title_name title_relative_url : option string)
    (review_content_as_single_line : bool) (raw_item_data : Node)
  : M IMDbUserReview :=
  let review_id :=
    Str.strip <$>
      valid_value_from_dict (attrib (element raw_item_data)) "data-review-id" in

  let review_date_results :=
    strings (xpath raw_item_data
      (xpath_descendant_contains_target_attribute_builder
         "span" "class" "review-date" true true)) in
  review_date ←
    match review_date_results with
    | [] => mret None
    | first :: _ =>
        setlocale_LC_TIME "C";;
        as_datetime ← strptime (Str.strip first);
        mret (Some (Datetime.isoformat as_datetime))
    end;

  let review_title_text_results :=
    strings (xpath raw_item_data
      (xpath_descendant_contains_target_attribute_builder
         "a" "class" "title" true true)) in
  let review_title :=
    match review_title_text_results with
    | [] => None
    | _ => Some (normalize_text review_title_text_results)
    end in

  let found_helpful_results :=
    strings (xpath raw_item_data
      (xpath_descendant_contains_target_attribute_builder
         "div" "class" "actions" true true)) in
  '(total_feedback, helpful_feedback) ←
    match found_helpful_results with
    | [] => mret (None, None)
    | _ =>
        let joined_text := Str.join "" found_helpful_results in
        match Re.match_ FOUND_HELPFUL_REGEX joined_text with
        | None => mret (None, None)
        | Some (helpful_variable_dict, _) =>
            total_text ← or_raise AttributeError
              (valid_value_from_dict helpful_variable_dict "total");
            total ← or_raise ValueError (Str.to_int (Str.remove "," total_text));
            helpful_text ← or_raise AttributeError
              (valid_value_from_dict helpful_variable_dict "helpful");
            helpful ← or_raise ValueError
              (Str.to_int (Str.remove "," helpful_text));
            mret (Some total, Some helpful)
        end
    end;

  let spoiler_results :=
    nodes (xpath raw_item_data
      (xpath_descendant_contains_target_attribute_builder
         "span" "class" "spoiler-warning" true false)) in
  let has_spoilers := negb (bool_decide (spoiler_results = [])) in

  let rating_results :=
    nodes (xpath raw_item_data
      (xpath_descendant_contains_target_attribute_builder
         "span" "class" "point-scale" true false)) in
  '(user_rating, maximum_rating) ←
    match rating_results with
    | [] => mret (None, None)
    | maximum_rating_node :: _ =>
        let user_rating_node := getprevious maximum_rating_node in
        user_rating_text ← or_raise AttributeError
          (user_rating_node ≫= (fun node => text (element node)));
        user_rating ← or_raise ValueError
          (Str.to_int (Str.strip user_rating_text));
        maximum_rating_text ← or_raise TypeError
          (text (element maximum_rating_node));
        maximum_rating ←
          match Re.match_ MAXIMUM_RATING_REGEX maximum_rating_text with
          | None => mret None
          | Some (rating_variable_dict, _) =>
              digits ← or_raise TypeError
                (valid_value_from_dict rating_variable_dict "maximum_rating");
              Some <$> or_raise ValueError (Str.to_int digits)
          end;
        (* if one of the values is missing, we will clear both *)
        match maximum_rating with
        | Some maximum =>
            if negb (user_rating =? 0) && negb (maximum =? 0)
            then mret (Some user_rating, Some maximum)
            else mret (None, None)
        | None => mret (None, None)
        end
    end;

  let user_data_results :=
    nodes (xpath raw_item_data
      (Anchors_with_href_below
         (xpath_descendant_contains_target_attribute_builder
            "div" "class" "display-name-date" true false))) in
  '(user_name, user_relative_url) ←
    match user_data_results with
    | [] => mret (None, None)
    | user_data_node :: _ =>
        name_text ← or_raise AttributeError (text (element user_data_node));
        let user_name := normalize_text [name_text] in
        href ← or_raise AttributeError
          (valid_value_from_dict (attrib (element user_data_node)) "href");
        let raw_user_relative_url := Str.strip href in
        user_relative_url ←
          lift (build_queryless_url_str_from_str raw_user_relative_url);
        mret (Some user_name, Some user_relative_url)
    end;

  let content_text_results :=
    strings (xpath raw_item_data
      (xpath_descendant_contains_target_attribute_builder
         "div" "class" "text" true true)) in
  let content :=
    match content_text_results with
    | [] => None
    | _ =>
        let content := normalize_text content_text_results in
        Some (if review_content_as_single_line
              then Str.join " " (Str.split "010" content)
              else content)
    end in

  mret {| review_id := review_id;
          review_date := review_date;
          review_title := review_title;
          title_id := title_id;
          title_name := title_name;
          title_relative_url := title_relative_url;
          total_feedback := total_feedback;
          helpful_feedback := helpful_feedback;
          maximum_rating := maximum_rating;
          user_rating := user_rating;
          has_spoilers := has_spoilers;
          user_name := user_name;
          user_relative_url := user_relative_url;
          content := content |}.


Definition parse_raw_html_to_imdb_user_review_set_and_more_data
    (title_id : string) (title_name title_relative_url : option string)
    (review_content_as_single_line : bool)
    (raw_html : list byte) (original_encoding : string)
  : M (gset IMDbUserReview * gmap string string * gmap string string) :=
  root ← lift (html_fromstring raw_html original_encoding);

  '(title_name, title_relative_url, title_data) ←
    (if negb (truthy title_name) && negb (truthy title_relative_url)
     then
       let title_results :=
         nodes (xpath root
           (xpath_descendant_contains_target_attribute_builder
              "a" "itemprop" "url" false false)) in
       match title_results with
       | [] => mret (title_name, title_relative_url, ∅)
       | title_node :: _ =>
           name_text ← or_raise AttributeError (text (element title_node));
           let title_name := normalize_text [name_text] in
           href ← or_raise AttributeError
             (valid_value_from_dict (attrib (element title_node)) "href");
           let raw_title_relative_url := Str.strip href in
           title_relative_url ←
             lift (build_queryless_url_str_from_str raw_title_relative_url);
           mret (Some title_name, Some title_relative_url,
                 <["title_relative_url" := title_relative_url]>
                   (<["title_name" := title_name]> ∅))
       end
     else mret (title_name, title_relative_url, ∅)
     : M (option string * option string * gmap string string));

  let review_results :=
    nodes (xpath root
      (xpath_descendant_contains_target_attribute_builder
         "div" "class" "imdb-user-review" false false)) in
  valid_user_review_set ←
    for_each review_results
      (fun valid_user_review_set raw_review =>
         item ← parse_raw_item_to_imdb_user_review
                  title_id title_name title_relative_url
                  review_content_as_single_line raw_review;
         (* a record is always true: it is always added *)
         mret ({[ item ]} ∪ valid_user_review_set))
      (∅ : gset IMDbUserReview);

  let load_more_data_results :=
    nodes (xpath root
      (xpath_descendant_contains_target_attribute_builder
         "div" "class" "load-more-data" true false)) in
  let more_data : gmap string string :=
    match load_more_data_results with
    | [] => ∅
    | load_more_data_node :: _ =>
        foldl
          (fun more_data key =>
             match valid_value_from_dict
                     (attrib (element load_more_data_node)) key with
             | Some retrieved_value => <[key := retrieved_value]> more_data
             | None => more_data
             end)
          ∅ ["data-key"; "data-ajaxurl"]
    end in

  mret (valid_user_review_set, title_data, more_data).

(** *** The pagination driver *)

(** The local variables of [crawl_imdb_user_reviews_by_title_id] that the
    loop reads and writes. (The throttle, which only waits, and its variable
    [last_get] are left out.) *)
Record CrawlState := {
  user_review_set : gset IMDbUserReview;
  known_title_name : option string;
  known_title_relative_url : option string;
  load_more_data_base_url : option URL;
  current_url : URL;
  load_more_data : bool;
  page_count : Z;
}.

Definition stop (st : CrawlState) : CrawlState :=
  {| user_review_set := user_review_set st;
     known_title_name := known_title_name st;
     known_title_relative_url := known_title_relative_url st;
     load_more_data_base_url := load_more_data_base_url st;
     current_url := current_url st;
     load_more_data := false;
     page_count := page_count st |}.

(** [client.get(url=str(current_url), timeout=2.0)]: the request is
    recorded, and the transport answers or raises. *)
Definition get (url : URL) : M Response := fun w =>
  (client_get (length (requests w)) url,
   {| lc_time := lc_time w; requests := requests w ++ [url];
      archive := archive w |}).

(** One run of the body of [while load_more_data]. [save] tells whether a
    directory to archive the pages in was given. *)
Definition crawl_step (title_id : string)
    (review_content_as_single_line : bool) (save : bool)
    (st : CrawlState) : M CrawlState :=
  response ← get (current_url st);
  let raw_html := content_bytes response in
  let original_encoding := encoding response in
  if (400 <=? status_code response) && (status_code response <? 600)
  then mret (stop st)
  else
    page_count ←
      (if save
       then write_page (page_count st) raw_html;; mret (page_count st + 1)
       else mret (page_count st));

    '(current_user_review_set, new_title_data, more_data) ←
      parse_raw_html_to_imdb_user_review_set_and_more_data
        title_id (known_title_name st) (known_title_relative_url st)
        review_content_as_single_line raw_html original_encoding;

    let user_review_set :=
      if bool_decide (current_user_review_set = ∅)
      then user_review_set st
      else user_review_set st ∪ current_user_review_set in

    let new_title_name := valid_value_from_dict new_title_data "title_name" in
    let title_name :=
      if negb (truthy (known_title_name st)) && truthy new_title_name
      then new_title_name else known_title_name st in

    let new_title_relative_url :=
      valid_value_from_dict new_title_data "title_relative_url" in
    let title_relative_url :=
      if negb (truthy (known_title_relative_url st))
         && truthy new_title_relative_url
      then new_title_relative_url else known_title_relative_url st in

    let st' (base : option URL) (url : URL) (more : bool) :=
      {| user_review_set := user_review_set;
         known_title_name := title_name;
         known_title_relative_url := title_relative_url;
         load_more_data_base_url := base;
         current_url := url;
         load_more_data := more;
         page_count := page_count |} in

    if bool_decide (more_data = ∅)
    then mret (st' (load_more_data_base_url st) (current_url st) false)
    else
      match valid_value_from_dict more_data "data-key" with
      | None => mret (st' (load_more_data_base_url st) (current_url st) false)
      | Some data_key =>
          let new_data_ajaxurl := valid_value_from_dict more_data "data-ajaxurl" in
          let load_more_data_base_url :=
            match load_more_data_base_url st, new_data_ajaxurl with
            | None, Some ajaxurl => Some (with_path BASE_IMDB_URL ajaxurl)
            | known, _ => known
            end in
          match load_more_data_base_url with
          | None => mret (st' None (current_url st) false)
          | Some base =>
              mret (st' (Some base)
                      (with_query base
                         [("ref_", "undefined"); ("paginationKey", data_key)])
                      true)
          end
      end.

(** [while load_more_data: ...], run for at most [fuel] requests; [None]
    when the loop has not ended by then. *)
Fixpoint crawl_loop (fuel : nat) (title_id : string)
    (review_content_as_single_line : bool) (save : bool)
    (st : CrawlState) : M (option CrawlState) :=
  if load_more_data st
  then
    match fuel with
    | O => mret None
    | S fuel' =>
        st' ← crawl_step title_id review_content_as_single_line save st;
        crawl_loop fuel' title_id review_content_as_single_line save st'
    end
  else mret (Some st).

Definition initial_state (title_id : string) : CrawlState :=
  {| user_review_set := ∅;
     known_title_name := None;
     known_title_relative_url := None;
     load_more_data_base_url := None;
     current_url :=
       with_path BASE_IMDB_URL (RELATIVE_IMDB_USER_REVIEWS_URL title_id);
     load_more_data := true;
     page_count := 0 |}.

(** The crawl of a title: the set of reviews the loop ends with. *)
Definition crawl_imdb_user_reviews_by_title_id (fuel : nat)
    (title_id : string) (review_content_as_single_line : bool)
    (save_path : option string) : M (option (gset IMDbUserReview)) :=
  st ← crawl_loop fuel title_id review_content_as_single_line
         (truthy save_path) (initial_state title_id);
  mret (user_review_set <$> st).

End Crawler.

Arguments strptime strptime_in_locale s w : simpl never.

(** * Documents and collaborators used in the examples *)

Module Page.

Definition elem (tg : string) (attrs : list (string * string))
    (tx : option string) (cs : list HtmlElement) (tl : option string)
  : HtmlElement :=
  Element (Some tg) (list_to_map attrs) tx cs tl.

(** The element lxml returns for a full document: its root. *)
Definition root_of (e : HtmlElement) : Node :=
  {| document := e; before := []; element := e |}.

(** The rating area of a review, around the given spans. *)
Definition rating_bar (spans : list HtmlElement) : HtmlElement :=
  elem "div" [("class", "ipl-ratings-bar")] None
    [ elem "span" [("class", "rating-other-user-rating")] None spans None ]
    None.

Definition star : HtmlElement :=
  elem "svg" [("class", "ipl-icon ipl-star-icon")] None [] None.
Definition score (s : string) : HtmlElement := elem "span" [] (Some s) [] None.
Definition point_scale (s : string) : HtmlElement :=
  elem "span" [("class", "point-scale")] (Some s) [] None.

(** A review container as the site writes it: the rating area [bar], the
    title, the author and the date, the text and the actions. *)
Definition review (attrs : list (string * string)) (bar : list HtmlElement)
    (date : string) : HtmlElement :=
  elem "div"
    (("class", "lister-item mode-detail imdb-user-review  collapsable") :: attrs)
    None
    [ elem "div" [("class", "review-container")] None
        [ elem "div" [("class", "lister-item-content")] None
            (bar ++
             [ elem "a" [("href", "/review/rv001/"); ("class", "title")]
                 (Some " A fine film ") [] None;
               elem "div" [("class", "display-name-date")] None
                 [ elem "span" [("class", "display-name-link")] None
                     [ elem "a" [("href", "/user/ur001/?ref_=tt_urv")]
                         (Some "alice") [] None ] None;
                   elem "span" [("class", "review-date")] (Some date) [] None ]
                 None;
               elem "div" [("class", "content")] None
                 [ elem "div" [("class", "text show-more__control")]
                     (Some "Line one.")
                     [ elem "br" [] None [] (Some "Line two.") ] None;
                   elem "div" [("class", "actions text-muted")]
                     (Some "   7 out of 9 found this helpful.  ")
                     [ elem "span" [] (Some "Was this review helpful?") [] None ]
                     None ]
                 None ])
            None ]
        None ]
    None.

(** A page of reviews: the link to the title, the reviews, and the nodes
    given for the end of the list (the load-more marker, if any). *)
Definition title_link : HtmlElement :=
  elem "a" [("itemprop", "url"); ("href", "/title/tt1/?ref_=tt_urv")]
    (Some "A Film") [] None.

Definition page (reviews : list HtmlElement) (more : list HtmlElement)
  : HtmlElement :=
  elem "html" [] None
    [ elem "body" [] None
        [ elem "div" [("class", "subpage_title_block")] None [ title_link ] None;
          elem "div" [("class", "lister-list")] None reviews None;
          elem "div" [("class", "lister")] None more None ]
        None ]
    None.

Definition load_more (attrs : list (string * string)) : HtmlElement :=
  elem "div" (("class", "load-more-data") :: attrs) None [] None.

Definition full_bar : list HtmlElement :=
  [ rating_bar [ star; score "8"; point_scale "/10" ] ].

(** The review of the scenario: id rv001, 8 of 10, 12 March 2020. *)
Definition rv001 : HtmlElement :=
  review [("data-review-id", "rv001")] full_bar "12 March 2020".

Definition one_review : HtmlElement := page [rv001] [].

(** The first node a relative or absolute query for review containers
    finds in a page. *)
Definition first_review (p : HtmlElement) : option Node :=
  head (nodes (xpath (root_of p)
    (xpath_descendant_contains_target_attribute_builder
       "div" "class" "imdb-user-review" false false))).

(** A stand-in for yarl on plain relative links: the text before the
    first question mark. *)
Definition cut_query (s : string) : Result string :=
  Ok (default "" (head (Str.split "?" s))).

(** No locale other than "C" is installed. *)
Definition no_locale (name s : string) : Result (Z * Z * Z) := Raise ValueError.

Definition world (lc : string) : World :=
  {| lc_time := lc; requests := []; archive := [] |}.

(** A review container as a node of the page that holds only it. *)
Definition node_in_page (r : HtmlElement) : Node :=
  {| document := page [r] []; before := []; element := r |}.

(** What the extractor makes of [rv001], for a title and the link [u] that
    yarl gives for the author. *)
Definition rv001_record (tid : string) (tn tu : option string) (single : bool)
    (u : string) : IMDbUserReview :=
  {| review_id := Some "rv001"; review_date := Some "2020-03-12";
     review_title := Some "A fine film"; title_id := tid;
     title_name := tn; title_relative_url := tu;
     total_feedback := Some 9; helpful_feedback := Some 7;
     maximum_rating := Some 10; user_rating := Some 8;
     has_spoilers := false; user_name := Some "alice";
     user_relative_url := Some u;
     content :=
       Some (if single then "Line one. Line two."
             else "Line one." +:+ String "010" "Line two.") |}.

(** The same review when the rating area shows only the scale, with
    nothing before it, and with only the star before it. *)
Definition lone_scale : HtmlElement :=
  review [("data-review-id", "rv001")] [ rating_bar [ point_scale "/10" ] ]
    "12 March 2020".
Definition star_and_scale : HtmlElement :=
  review [("data-review-id", "rv001")]
    [ rating_bar [ star; point_scale "/10" ] ] "12 March 2020".

(** A review whose date is written month first. *)
Definition month_first : HtmlElement :=
  review [("data-review-id", "rv002")] full_bar "March 12, 2020".

(** A review rated "0" of "/10". *)
Definition zero_score : HtmlElement :=
  review [("data-review-id", "rv004")]
    [ rating_bar [ star; score "0"; point_scale "/10" ] ] "12 March 2020".

(** A review whose id attribute is present and empty. *)
Definition empty_id : HtmlElement :=
  review [("data-review-id", "")] full_bar "12 March 2020".

(** The pages of the crawls below. The first holds rv001 and a load-more
    marker with both attributes; the second holds one more review and a
    marker that has the key only; the third holds a review and no marker. *)
Definition first_page : HtmlElement :=
  page [rv001]
    [ load_more [("data-key", "abc123"); ("data-ajaxurl", "/title/tt1/_ajax")] ].

Definition rv002 : HtmlElement :=
  review [("data-review-id", "rv002")] full_bar "13 March 2020".
Definition rv003 : HtmlElement :=
  review [("data-review-id", "rv003")] full_bar "14 March 2020".

Definition key_only_page : HtmlElement :=
  page [rv002] [ load_more [("data-key", "k2")] ].

Definition last_page : HtmlElement := page [rv003] [].

(** A page whose marker has an empty key. *)
Definition empty_key_page : HtmlElement :=
  page [rv001]
    [ load_more [("data-key", ""); ("data-ajaxurl", "/title/tt1/_ajax")] ].

(** A page with two reviews, the first with its date written month
    first, the second the well-formed rv001. *)
Definition month_first_page : HtmlElement := page [month_first; rv001] [].

(** A stand-in for lxml: the body "1" is the first page, "2" the page with
    the key only, "3" the last page, "4" the page with the empty key, "5"
    the page with the date written month first. *)
Definition parse_bytes (raw : list byte) (enc : string) : Result Node :=
  match raw with
  | [ "1"%byte ] => Ok (root_of first_page)
  | [ "2"%byte ] => Ok (root_of key_only_page)
  | [ "3"%byte ] => Ok (root_of last_page)
  | [ "4"%byte ] => Ok (root_of empty_key_page)
  | [ "5"%byte ] => Ok (root_of month_first_page)
  | _ => Raise ParserError
  end.

Definition ok_response (body : list byte) : Response :=
  {| status_code := 200; content_bytes := body; encoding := "utf-8" |}.

Definition not_found : Response :=
  {| status_code := 404; content_bytes := []; encoding := "utf-8" |}.

(** A server that answers the first request with the first page and
    every other request with 404. *)
Definition one_page_then_404 (sent : nat) (url : URL) : Result Response :=
  match sent with
  | O => Ok (ok_response [ "1"%byte ])
  | _ => Ok not_found
  end.

(** A server with three pages. *)
Definition three_pages (sent : nat) (url : URL) : Result Response :=
  match sent with
  | 0%nat => Ok (ok_response [ "1"%byte ])
  | 1%nat => Ok (ok_response [ "2"%byte ])
  | 2%nat => Ok (ok_response [ "3"%byte ])
  | _ => Ok not_found
  end.

(** A server whose only page has a marker with an empty key. *)
Definition empty_key_server (sent : nat) (url : URL) : Result Response :=
  Ok (ok_response [ "4"%byte ]).

Definition reviews_url : URL :=
  {| scheme := "https"; host := "www.imdb.com"; path := "/title/tt1/reviews";
     query := [] |}.

Definition ajax_base : URL :=
  {| scheme := "https"; host := "www.imdb.com"; path := "/title/tt1/_ajax";
     query := [] |}.

Definition ajax_url (key : string) : URL :=
  {| scheme := "https"; host := "www.imdb.com"; path := "/title/tt1/_ajax";
     query := [("ref_", "undefined"); ("paginationKey", key)] |}.

(** The record of a review of these pages. *)
Definition record (id date : string) : IMDbUserReview :=
  {| review_id := Some id; review_date := Some date;
     review_title := Some "A fine film"; title_id := "tt1";
     title_name := Some "A Film"; title_relative_url := Some "/title/tt1/";
     total_feedback := Some 9; helpful_feedback := Some 7;
     maximum_rating := Some 10; user_rating := Some 8;
     has_spoilers := false; user_name := Some "alice";
     user_relative_url := Some "/user/ur001/";
     content := Some ("Line one." +:+ String "010" "Line two.") |}.

(** The state of the driver after the first page. *)
Definition after_first_page : CrawlState :=
  {| user_review_set := {[ record "rv001" "2020-03-12" ]};
     known_title_name := Some "A Film";
     known_title_relative_url := Some "/title/tt1/";
     load_more_data_base_url := Some ajax_base;
     current_url := ajax_url "abc123";
     load_more_data := true;
     page_count := 0 |}.

Definition sent (lc : string) (urls : list URL) : World :=
  {| lc_time := lc; requests := urls; archive := [] |}.

(** The state of the driver after the second of the three pages. *)
Definition after_second_page : CrawlState :=
  {| user_review_set :=
       {[ record "rv001" "2020-03-12" ]} ∪ {[ record "rv002" "2020-03-13" ]};
     known_title_name := Some "A Film";
     known_title_relative_url := Some "/title/tt1/";
     load_more_data_base_url := Some ajax_base;
     current_url := ajax_url "k2";
     load_more_data := true;
     page_count := 0 |}.

(** A server whose second answer never arrives. *)
Definition one_page_then_timeout (sent : nat) (url : URL) : Result Response :=
  match sent with
  | O => Ok (ok_response [ "1"%byte ])
  | _ => Raise TransportError
  end.

(** A server whose second page has a review dated month first. *)
Definition bad_second_page (sent : nat) (url : URL) : Result Response :=
  match sent with
  | O => Ok (ok_response [ "1"%byte ])
  | _ => Ok (ok_response [ "5"%byte ])
  end.

(** The state [st] of a crawl that keeps an archive, after [n] pages were
    written to it, and the world with those pages. *)
Definition with_pages (n : Z) (st : CrawlState) : CrawlState :=
  {| user_review_set := user_review_set st;
     known_title_name := known_title_name st;
     known_title_relative_url := known_title_relative_url st;
     load_more_data_base_url := load_more_data_base_url st;
     current_url := current_url st;
     load_more_data := load_more_data st;
     page_count := n |}.

Definition saved (lc : string) (urls : list URL) (pages : list (Z * list byte))
  : World :=
  {| lc_time := lc; requests := urls; archive := pages |}.

(** A review whose user score reads "N/A". *)
Definition unparsable_score : HtmlElement :=
  review [("data-review-id", "rv005")]
    [ rating_bar [ star; score "N/A"; point_scale "/10" ] ] "12 March 2020".




(** A review whose author is shown by a picture only: the anchor has no
    text of its own. *)
Definition pictured_author : HtmlElement :=
  elem "div" [("class", "lister-item"); ("data-review-id", "rv009")] None
    [ elem "div" [("class", "display-name-date")] None
        [ elem "a" [("href", "/user/ur009/")] None
            [ elem "img" [("src", "ur009.png")] None [] None ] None ]
        None ]
    None.

End Page.

(** [pages_fetched k st w st' w']: from the state [st] in the world [w],
    the loop of the driver runs its body [k] times without an exception and
    is then in the state [st'] and the world [w']. *)
Inductive pages_fetched (build : string -> Result string)
    (sl : string -> string -> Result (Z * Z * Z))
    (fs : list byte -> string -> Result Node)
    (client : nat -> URL -> Result Response)
    (tid : string) (single save : bool)
  : nat -> CrawlState -> World -> CrawlState -> World -> Prop :=
| fetched_none st w :
    pages_fetched build sl fs client tid single save 0 st w st w
| fetched_next k st w st1 w1 st2 w2 :
    load_more_data st = true ->
    crawl_step build sl fs client tid single save st w = (Ok st1, w1) ->
    pages_fetched build sl fs client tid single save k st1 w1 st2 w2 ->
    pages_fetched build sl fs client tid single save (S k) st w st2 w2.


(** * The stages of the extractor, of the parser and of the driver

    The functions above follow the source, each in one piece. To state and
    prove their properties they are cut here into the blocks the source is
    written in; the lemmas [extract_stages], [parse_stages] and
    [crawl_step_stages] below show that the pieces compose to the
    functions. *)

Definition review_date_results (n : Node) : list string :=
  strings (xpath n (xpath_descendant_contains_target_attribute_builder
                      "span" "class" "review-date" true true)).

Definition found_helpful_results (n : Node) : list string :=
  strings (xpath n (xpath_descendant_contains_target_attribute_builder
                      "div" "class" "actions" true true)).

Definition rating_results (n : Node) : list Node :=
  nodes (xpath n (xpath_descendant_contains_target_attribute_builder
                    "span" "class" "point-scale" true false)).

Definition user_data_results (n : Node) : list Node :=
  nodes (xpath n (Anchors_with_href_below
                    (xpath_descendant_contains_target_attribute_builder
                       "div" "class" "display-name-date" true false))).

Definition title_results (root : Node) : list Node :=
  nodes (xpath root (xpath_descendant_contains_target_attribute_builder
                       "a" "itemprop" "url" false false)).

Definition review_results (root : Node) : list Node :=
  nodes (xpath root (xpath_descendant_contains_target_attribute_builder
                       "div" "class" "imdb-user-review" false false)).

Definition load_more_data_results (root : Node) : list Node :=
  nodes (xpath root (xpath_descendant_contains_target_attribute_builder
                       "div" "class" "load-more-data" true false)).

(** The world once the LC_TIME locale has been set to "C". *)
Definition in_C_locale (w : World) : World :=
  {| lc_time := "C"; requests := requests w; archive := archive w |}.

(** The block of the review date: the only one with an effect. *)
Definition date_of (n : Node) (w : World) : Result (option string) * World :=
  match review_date_results n with
  | [] => (Ok None, w)
  | first :: _ =>
      (as_result ValueError
         (Some <$> (Datetime.isoformat <$> Datetime.strptime_C (Str.strip first))),
       in_C_locale w)
  end.

(** The block of the helpful phrase: total and helpful. *)
Definition feedback_of (n : Node) : Result (option Z * option Z) :=
  match found_helpful_results n with
  | [] => Ok (None, None)
  | _ =>
      match Re.match_ FOUND_HELPFUL_REGEX (Str.join "" (found_helpful_results n)) with
      | None => Ok (None, None)
      | Some (d, _) =>
          total_text ← as_result AttributeError (valid_value_from_dict d "total");
          total ← as_result ValueError (Str.to_int (Str.remove "," total_text));
          helpful_text ← as_result AttributeError (valid_value_from_dict d "helpful");
          helpful ← as_result ValueError (Str.to_int (Str.remove "," helpful_text));
          Ok (Some total, Some helpful)
      end
  end.

(** The rule of the source for the pair of ratings: if one of the values
    is missing (or zero, which is false in Python), both are cleared. *)
Definition clear_both (user_rating : Z) (maximum_rating : option Z)
  : option Z * option Z :=
  match maximum_rating with
  | Some maximum =>
      if negb (user_rating =? 0) && negb (maximum =? 0)
      then (Some user_rating, Some maximum)
      else (None, None)
  | None => (None, None)
  end.

(** The block of the rating: user rating and maximum rating. *)
Definition rating_of (n : Node) : Result (option Z * option Z) :=
  match rating_results n with
  | [] => Ok (None, None)
  | maximum_rating_node :: _ =>
      user_rating_text ← as_result AttributeError
        (getprevious maximum_rating_node ≫= (fun node => text (element node)));
      user_rating ← as_result ValueError (Str.to_int (Str.strip user_rating_text));
      maximum_rating_text ← as_result TypeError (text (element maximum_rating_node));
      maximum_rating ←
        match Re.match_ MAXIMUM_RATING_REGEX maximum_rating_text with
        | None => Ok None
        | Some (d, _) =>
            digits ← as_result TypeError (valid_value_from_dict d "maximum_rating");
            Some <$> as_result ValueError (Str.to_int digits)
        end;
      Ok (clear_both user_rating maximum_rating)
  end.

(** The name and the link of a node found by its anchor: the block of the
    author in the extractor, and the block of the title in the parser. *)
Definition name_and_link (build : string -> Result string) (anchor : Node)
  : Result (string * string) :=
  name_text ← as_result AttributeError (text (element anchor));
  href ← as_result AttributeError
    (valid_value_from_dict (attrib (element anchor)) "href");
  link ← build (Str.strip href);
  Ok (normalize_text [name_text], link).

Definition author_of (build : string -> Result string) (n : Node)
  : Result (option string * option string) :=
  match user_data_results n with
  | [] => Ok (None, None)
  | user_data_node :: _ =>
      '(name, link) ← name_and_link build user_data_node;
      Ok (Some name, Some link)
  end.

(** The blocks without effect or exception: id, title, spoilers, text. *)
Definition pure_fields (tid : string) (tn tu : option string) (single : bool)
    (n : Node) (date : option string) (feedback rating : option Z * option Z)
    (author : option string * option string) : IMDbUserReview :=
  let review_title_text_results :=
    strings (xpath n (xpath_descendant_contains_target_attribute_builder
                        "a" "class" "title" true true)) in
  let content_text_results :=
    strings (xpath n (xpath_descendant_contains_target_attribute_builder
                        "div" "class" "text" true true)) in
  {| review_id :=
       Str.strip <$> valid_value_from_dict (attrib (element n)) "data-review-id";
     review_date := date;
     review_title :=
       match review_title_text_results with
       | [] => None
       | _ => Some (normalize_text review_title_text_results)
       end;
     title_id := tid;
     title_name := tn;
     title_relative_url := tu;
     total_feedback := feedback.1;
     helpful_feedback := feedback.2;
     maximum_rating := rating.2;
     user_rating := rating.1;
     has_spoilers :=
       negb (bool_decide
         (nodes (xpath n (xpath_descendant_contains_target_attribute_builder
                            "span" "class" "spoiler-warning" true false)) = []));
     user_name := author.1;
     user_relative_url := author.2;
     content :=
       match content_text_results with
       | [] => None
       | _ =>
           let content := normalize_text content_text_results in
           Some (if single
                 then Str.join " " (Str.split "010" content)
                 else content)
       end |}.

(** The blocks after the date, together. *)
Definition fields_of (build : string -> Result string)
    (tid : string) (tn tu : option string) (single : bool) (n : Node)
    (date : option string) : Result IMDbUserReview :=
  feedback ← feedback_of n;
  rating ← rating_of n;
  author ← author_of build n;
  Ok (pure_fields tid tn tu single n date feedback rating author).

(** The block of the parser that looks for the title: the title known
    after it, and the title data reported. *)
Definition title_of (build : string -> Result string) (tn tu : option string)
    (root : Node)
  : Result (option string * option string * gmap string string) :=
  if negb (truthy tn) && negb (truthy tu)
  then
    match title_results root with
    | [] => Ok (tn, tu, ∅)
    | title_node :: _ =>
        '(name, link) ← name_and_link build title_node;
        Ok (Some name, Some link,
            <["title_relative_url" := link]> (<["title_name" := name]> ∅))
    end
  else Ok (tn, tu, ∅).

(** The block of the parser that reads the load-more marker. *)
Definition more_data_of (root : Node) : gmap string string :=
  match load_more_data_results root with
  | [] => ∅
  | load_more_data_node :: _ =>
      foldl
        (fun more_data key =>
           match valid_value_from_dict
                   (attrib (element load_more_data_node)) key with
           | Some retrieved_value => <[key := retrieved_value]> more_data
           | None => more_data
           end)
        ∅ ["data-key"; "data-ajaxurl"]
  end.

(** The end of the loop body: the state after a page whose parse gave
    [current], [new_title_data] and [more_data]. *)
Definition next_state (st : CrawlState) (pages : Z)
    (current : gset IMDbUserReview)
    (new_title_data more_data : gmap string string) : CrawlState :=
  let reviews :=
    if bool_decide (current = ∅) then user_review_set st
    else user_review_set st ∪ current in
  let new_title_name := valid_value_from_dict new_title_data "title_name" in
  let tn :=
    if negb (truthy (known_title_name st)) && truthy new_title_name
    then new_title_name else known_title_name st in
  let new_title_relative_url :=
    valid_value_from_dict new_title_data "title_relative_url" in
  let tu :=
    if negb (truthy (known_title_relative_url st)) && truthy new_title_relative_url
    then new_title_relative_url else known_title_relative_url st in
  let base :=
    match load_more_data_base_url st,
          valid_value_from_dict more_data "data-ajaxurl" with
    | None, Some ajaxurl => Some (with_path BASE_IMDB_URL ajaxurl)
    | known, _ => known
    end in
  let st' (base : option URL) (url : URL) (more : bool) :=
    {| user_review_set := reviews;
       known_title_name := tn;
       known_title_relative_url := tu;
       load_more_data_base_url := base;
       current_url := url;
       load_more_data := more;
       page_count := pages |} in
  match valid_value_from_dict more_data "data-key", base with
  | Some data_key, Some b =>
      st' (Some b)
        (with_query b [("ref_", "undefined"); ("paginationKey", data_key)])
        true
  | Some _, None => st' None (current_url st) false
  | None, _ => st' (load_more_data_base_url st) (current_url st) false
  end.

(** The world once the request for [url] has been sent, and once the page
    has been archived when an archive is kept. *)
Definition requested (url : URL) (w : World) : World :=
  {| lc_time := lc_time w; requests := requests w ++ [url];
     archive := archive w |}.

Definition archived (save : bool) (pages : Z) (raw : list byte) (w : World)
  : World :=
  if save
  then {| lc_time := lc_time w; requests := requests w;
          archive := archive w ++ [(pages, raw)] |}
  else w.

Definition is_error_status (status : Z) : bool :=
  (400 <=? status) && (status <? 600).

(** The loop of the parser over the review containers. *)
Definition add_reviews (build : string -> Result string)
    (sl : string -> string -> Result (Z * Z * Z))
    (tid : string) (tn tu : option string) (single : bool)
    (l : list Node) (acc : gset IMDbUserReview) : M (gset IMDbUserReview) :=
  for_each l
    (fun acc raw_review =>
       item ← parse_raw_item_to_imdb_user_review build sl tid tn tu single
                raw_review;
       mret ({[ item ]} ∪ acc))
    acc.

(** ** What a match consumes and binds

    To show that the numbers the patterns capture can always be read by
    [int], the matcher is related to the matches of a pattern: [matches r s g
    s' g'] says that [r] matches at the start of [s], leaving [s'], and
    turns the groups [g] into [g']. *)
Inductive matches : regex -> string -> gmap string string ->
                    string -> gmap string string -> Prop :=
| matches_empty s g : matches Empty_re s g s g
| matches_char p c s g : p c = true -> matches (Char_re p) (String c s) g s g
| matches_seq r1 r2 s g s1 g1 s2 g2 :
    matches r1 s g s1 g1 -> matches r2 s1 g1 s2 g2 ->
    matches (Seq_re r1 r2) s g s2 g2
| matches_alt_l r1 r2 s g s' g' :
    matches r1 s g s' g' -> matches (Alt_re r1 r2) s g s' g'
| matches_alt_r r1 r2 s g s' g' :
    matches r2 s g s' g' -> matches (Alt_re r1 r2) s g s' g'
| matches_star_nil r s g : matches (Star_re r) s g s g
| matches_star_cons r s g s1 g1 s2 g2 :
    matches r s g s1 g1 -> matches (Star_re r) s1 g1 s2 g2 ->
    matches (Star_re r) s g s2 g2
| matches_group name r s g s' g' :
    matches r s g s' g' ->
    matches (Group_re name r) s g s' (<[name := Re.consumed s s']> g').

(** All the characters of a string satisfy [q]. *)
Fixpoint all_chars (q : ascii -> bool) (s : string) : Prop :=
  match s with
  | EmptyString => True
  | String c s' => q c = true /\ all_chars q s'
  end.

(** A number as the patterns capture it: a digit first, then characters
    that satisfy [q] (digits, or digits and commas). *)
Definition numeral (q : ascii -> bool) (s : string) : Prop :=
  match s with
  | EmptyString => False
  | String c _ => Str.isdecimal c = true /\ all_chars q s
  end.

(** Every character the pattern can consume satisfies [q]. *)
Fixpoint within (q : ascii -> bool) (r : regex) : Prop :=
  match r with
  | Empty_re => True
  | Char_re p => forall c, p c = true -> q c = true
  | Seq_re r1 r2 | Alt_re r1 r2 => within q r1 /\ within q r2
  | Star_re r1 | Group_re _ r1 => within q r1
  end.

(** The pattern consumes at least one character, and the first one is a
    decimal digit. *)
Fixpoint starts_with_digit (r : regex) : Prop :=
  match r with
  | Empty_re | Star_re _ => False
  | Char_re p => forall c, p c = true -> Str.isdecimal c = true
  | Seq_re r1 _ | Group_re _ r1 => starts_with_digit r1
  | Alt_re r1 r2 => starts_with_digit r1 /\ starts_with_digit r2
  end.

(** Every group of the pattern captures a numeral. *)
Fixpoint groups_capture_numerals (q : ascii -> bool) (r : regex) : Prop :=
  match r with
  | Empty_re | Char_re _ => True
  | Seq_re r1 r2 | Alt_re r1 r2 =>
      groups_capture_numerals q r1 /\ groups_capture_numerals q r2
  | Star_re r1 => groups_capture_numerals q r1
  | Group_re _ r1 =>
      within q r1 /\ starts_with_digit r1 /\ groups_capture_numerals q r1
  end.

(** Every match of the pattern goes through the group [name]. *)
Fixpoint binds (name : string) (r : regex) : bool :=
  match r with
  | Empty_re | Char_re _ | Star_re _ => false
  | Seq_re r1 r2 => binds name r1 || binds name r2
  | Alt_re r1 r2 => binds name r1 && binds name r2
  | Group_re name' r1 => bool_decide (name' = name) || binds name r1
  end.

Definition digit_or_comma (c : ascii) : bool :=
  Str.isdecimal c || Ascii.eqb c ",".

(** ** Documents the parser reads without an exception *)






Definition spoiler_results (n : Node) : list Node :=
  nodes (xpath n (xpath_descendant_contains_target_attribute_builder
                    "span" "class" "spoiler-warning" true false)).



(** ** The arguments of the builder and of the crawl

    A name of XPath without a prefix, as far as ASCII goes: a letter, then
    letters, digits, hyphens and underscores. A target that can stand
    between the double quotes of the expression and be one word: no space
    and no double quote. A title id that yarl leaves as it is in a path:
    letters and digits. *)
Definition is_name_char (c : ascii) : bool :=
  Str.is_ascii_alnum c || Ascii.eqb c "-" || Ascii.eqb c "_".

Definition is_name (s : string) : Prop :=
  match s with
  | EmptyString => False
  | String c s' => Str.is_ascii_alpha c = true /\ all_chars is_name_char s'
  end.

Definition is_target_char (c : ascii) : bool :=
  negb (Ascii.eqb c " ") && negb (Ascii.eqb c "034").

(** * Proofs *)

(** ** The functions of the source, by their stages *)

Ltac run_monad :=
  unfold or_raise, as_result, raise, lift;
  unfold mbind, M_bind, Result_bind, mret, M_ret, Result_ret, fmap, M_fmap,
    Result_fmap; cbv beta iota.

(** An equation between closed terms, checked by evaluating both sides. *)
Ltac by_vm :=
  lazymatch goal with
  | |- _ = ?r => vm_cast_no_check (eq_refl r)
  end.

(** Case analysis on what the left-hand side of the goal is waiting for. *)
Ltac head_destruct t :=
  lazymatch t with
  | match ?x with _ => _ end => first [head_destruct x | destruct x eqn:?]
  | (match ?x with _ => _ end) _ => first [head_destruct x | destruct x eqn:?]
  end.

Ltac step :=
  lazymatch goal with
  | |- ?l = _ => head_destruct l
  end; cbv beta iota.

Ltac steps :=
  repeat step;
  lazymatch goal with
  | |- match _ with _ => _ end = _ => idtac
  | |- _ => try reflexivity
  end.

Lemma extract_stages build sl tid tn tu single n w :
  parse_raw_item_to_imdb_user_review build sl tid tn tu single n w =
  match date_of n w with
  | (Ok d, w') => (fields_of build tid tn tu single n d, w')
  | (Raise e, w') => (Raise e, w')
  end.
Proof.
  unfold parse_raw_item_to_imdb_user_review, date_of, fields_of, feedback_of,
    rating_of, author_of, name_and_link, pure_fields, clear_both,
    setlocale_LC_TIME, strptime, in_C_locale.
  fold (review_date_results n) (found_helpful_results n) (rating_results n)
    (user_data_results n).
  run_monad.
  destruct (review_date_results n) as [|first rest]; cbv beta iota.
  2: { cbn [lc_time]. rewrite bool_decide_eq_true_2 by reflexivity.
       unfold from_option, option_fmap, option_map.
       destruct (Datetime.strptime_C (Str.strip first)) as [d|]; cbv beta iota;
         [|reflexivity].
       steps. }
  steps.
Qed.

Lemma parse_stages build sl fs tid tn tu single raw enc w :
  parse_raw_html_to_imdb_user_review_set_and_more_data build sl fs
    tid tn tu single raw enc w =
  match fs raw enc with
  | Raise e => (Raise e, w)
  | Ok root =>
      match title_of build tn tu root with
      | Raise e => (Raise e, w)
      | Ok (tn', tu', td) =>
          match add_reviews build sl tid tn' tu' single
                  (review_results root) ∅ w with
          | (Ok s, w') => (Ok (s, td, more_data_of root), w')
          | (Raise e, w') => (Raise e, w')
          end
      end
  end.
Proof.
  unfold parse_raw_html_to_imdb_user_review_set_and_more_data, title_of,
    name_and_link, add_reviews, more_data_of.
  fold (title_results) (review_results) (load_more_data_results).
  run_monad.
  destruct (fs raw enc) as [root|]; [|reflexivity].
  fold (title_results root) (review_results root) (load_more_data_results root).
  destruct (negb (truthy tn) && negb (truthy tu)); cbv beta iota.
  - destruct (title_results root) as [|title_node ?]; cbv beta iota.
    + steps.
    + destruct (text (element title_node)); cbv beta iota; [|reflexivity].
      destruct (valid_value_from_dict _ "href"); cbv beta iota; [|reflexivity].
      destruct (build _); cbv beta iota; [|reflexivity].
      steps.
  - steps.
Qed.

Lemma valid_value_empty key : valid_value_from_dict ∅ key = None.
Proof. unfold valid_value_from_dict. by rewrite lookup_empty. Qed.

Lemma crawl_step_stages build sl fs client tid single save st w :
  crawl_step build sl fs client tid single save st w =
  let w1 := requested (current_url st) w in
  match client (length (requests w)) (current_url st) with
  | Raise e => (Raise e, w1)
  | Ok response =>
      if is_error_status (status_code response)
      then (Ok (stop st), w1)
      else
        match parse_raw_html_to_imdb_user_review_set_and_more_data
                build sl fs tid (known_title_name st)
                (known_title_relative_url st) single
                (content_bytes response) (encoding response)
                (archived save (page_count st) (content_bytes response) w1) with
        | (Ok (s, td, md), w2) =>
            (Ok (next_state st
                   (if save then page_count st + 1 else page_count st)
                   s td md), w2)
        | (Raise e, w2) => (Raise e, w2)
        end
  end.
Proof.
  unfold crawl_step, get, next_state, requested, archived, is_error_status,
    write_page.
  run_monad.
  destruct (client _ _) as [response|]; [|reflexivity].
  destruct (_ && _); [reflexivity|].
  destruct save; cbv beta iota;
    (destruct (parse_raw_html_to_imdb_user_review_set_and_more_data _ _ _ _ _ _ _ _ _ _)
       as [[[[s td] md]|e] w2]; [|reflexivity]);
    (destruct (bool_decide (md = ∅)) eqn:Hmd;
     [ apply bool_decide_eq_true in Hmd; subst md;
       rewrite !valid_value_empty; reflexivity |]);
    destruct (valid_value_from_dict md "data-key"); [|reflexivity| |reflexivity];
    destruct (load_more_data_base_url st), (valid_value_from_dict md "data-ajaxurl");
    reflexivity.
Qed.


(** ** The field extractor *)

Lemma extract_ok build sl tid tn tu single n w r w' :
  parse_raw_item_to_imdb_user_review build sl tid tn tu single n w = (Ok r, w') ->
  exists d feedback rating author,
    date_of n w = (Ok d, w')
    /\ feedback_of n = Ok feedback
    /\ rating_of n = Ok rating
    /\ author_of build n = Ok author
    /\ r = pure_fields tid tn tu single n d feedback rating author.
Proof.
  rewrite extract_stages. destruct (date_of n w) as [[d|e] w1]; [|discriminate].
  unfold fields_of. run_monad.
  destruct (feedback_of n) as [fb|]; [|discriminate].
  destruct (rating_of n) as [rt|]; [|discriminate].
  destruct (author_of build n) as [au|]; [|discriminate].
  intros [= <- <-]. by exists d, fb, rt, au.
Qed.

Lemma clear_both_pair u m :
  (clear_both u m).1 = None <-> (clear_both u m).2 = None.
Proof.
  unfold clear_both. destruct m as [m|]; [|done].
  destruct (negb (u =? 0) && negb (m =? 0)); done.
Qed.

(** In a record the field extractor produces the two ratings are null
    together; they are null without a rating node, and when the text of the
    first point-scale node does not match the pattern of a maximum. *)
Lemma rating_pair_null_together build sl tid tn tu single n w r w' :
  parse_raw_item_to_imdb_user_review build sl tid tn tu single n w = (Ok r, w') ->
  (user_rating r = None <-> maximum_rating r = None)
  /\ (rating_results n = [] -> user_rating r = None /\ maximum_rating r = None)
  /\ (forall m rest, rating_results n = m :: rest ->
        text (element m) ≫= Re.match_ MAXIMUM_RATING_REGEX = None ->
        user_rating r = None /\ maximum_rating r = None).
Proof.
  intros (d & fb & rt & au & _ & _ & Hrt & _ & ->)%extract_ok. simpl.
  unfold rating_of in Hrt. split; [|split].
  - destruct (rating_results n) as [|m rest]; [by injection Hrt as <-|].
    revert Hrt. run_monad. intros Hrt.
    repeat (match type of Hrt with
            | match ?x with _ => _ end = _ => destruct x eqn:?; try discriminate
            end);
      injection Hrt as <-; apply clear_both_pair.
  - intros Hnil. rewrite Hnil in Hrt. by injection Hrt as <-.
  - intros m rest Hm Hno. rewrite Hm in Hrt. revert Hrt. run_monad. intros Hrt.
    destruct (option_bind _ _ _ (getprevious m)); [|discriminate].
    destruct (Str.to_int (Str.strip _)); [|discriminate].
    destruct (text (element m)) as [mt|]; [|discriminate].
    simpl in Hno. rewrite Hno in Hrt. by injection Hrt as <-.
Qed.

(** C3. On a review whose rating area shows only the scale "/10", with no
    node before it or with only the star before it, the field extractor
    produces no record: [getprevious()] gives nothing, or a node without
    text, and reading the user rating raises [AttributeError]. *)
Theorem lone_scale_raises build sl tid tn tu single w :
  parse_raw_item_to_imdb_user_review build sl tid tn tu single
    (Page.node_in_page Page.lone_scale) w
  = (Raise AttributeError, in_C_locale w)
  /\ parse_raw_item_to_imdb_user_review build sl tid tn tu single
       (Page.node_in_page Page.star_and_scale) w
     = (Raise AttributeError, in_C_locale w).
Proof. split; vm_compute; reflexivity. Qed.

Lemma date_of_unparsable n w first rest :
  review_date_results n = first :: rest ->
  Datetime.strptime_C (Str.strip first) = None ->
  date_of n w = (Raise ValueError, in_C_locale w).
Proof. unfold date_of. by intros -> ->. Qed.

(** C4, as amended. When the first review-date text of a container does
    not parse as day, month name and year, the field extractor raises
    [ValueError] and produces no record; a record it produces has a null
    review date exactly when the container has no review-date text. *)
Theorem unparsable_date_raises build sl tid tn tu single n w :
  (forall first rest,
     review_date_results n = first :: rest ->
     Datetime.strptime_C (Str.strip first) = None ->
     parse_raw_item_to_imdb_user_review build sl tid tn tu single n w
     = (Raise ValueError, in_C_locale w))
  /\ (forall r w',
        parse_raw_item_to_imdb_user_review build sl tid tn tu single n w
        = (Ok r, w') ->
        (review_date r = None <-> review_date_results n = [])).
Proof.
  split.
  - intros first rest Hres Hbad. rewrite extract_stages.
    by rewrite (date_of_unparsable _ _ _ _ Hres Hbad).
  - intros r w' (d & fb & rt & au & Hd & _ & _ & _ & ->)%extract_ok. simpl.
    unfold date_of in Hd. destruct (review_date_results n) as [|first rest].
    + by injection Hd as <- _.
    + destruct (Datetime.strptime_C _); simpl in Hd; [|discriminate].
      injection Hd as <- _. done.
Qed.

Lemma unparsable_date_raises_witness :
  review_date_results (Page.node_in_page Page.month_first) = ["March 12, 2020"]
  /\ Datetime.strptime_C (Str.strip "March 12, 2020") = None
  /\ parse_raw_item_to_imdb_user_review Page.cut_query Page.no_locale
       "tt1" None None false (Page.node_in_page Page.month_first)
       (Page.world "C")
     = (Raise ValueError, in_C_locale (Page.world "C")).
Proof.
  split; [vm_compute; reflexivity|]. split; [vm_compute; reflexivity|].
  apply (proj1 (unparsable_date_raises Page.cut_query Page.no_locale
                  "tt1" None None false
                  (Page.node_in_page Page.month_first) (Page.world "C"))
           "March 12, 2020" []);
    vm_compute; reflexivity.
Defined.

(** C4 as stated fails: the review-date text "March 12, 2020" is present
    and does not parse, and the field extractor raises instead of leaving
    the date null. *)
Lemma unparsable_date_counterexample :
  review_date_results (Page.node_in_page Page.month_first) = ["March 12, 2020"]
  /\ Datetime.strptime_C (Str.strip "March 12, 2020") = None
  /\ ~ exists r w',
         parse_raw_item_to_imdb_user_review Page.cut_query Page.no_locale
           "tt1" None None false (Page.node_in_page Page.month_first)
           (Page.world "C") = (Ok r, w').
Proof.
  split; [vm_compute; reflexivity|]. split; [vm_compute; reflexivity|].
  intros (r & w' & H). vm_compute in H. discriminate H.
Qed.

Lemma extract_world build sl tid tn tu single n w :
  (parse_raw_item_to_imdb_user_review build sl tid tn tu single n w).2
  = (if decide (review_date_results n = []) then w else in_C_locale w).
Proof.
  rewrite extract_stages. unfold date_of.
  destruct (review_date_results n) as [|first rest]; simpl; [done|].
  destruct (Datetime.strptime_C _); done.
Qed.

(** The result of the extractor is the one it gives in the "C" locale
    with no request sent and no page archived. *)
Lemma extract_result build sl tid tn tu single n w :
  (parse_raw_item_to_imdb_user_review build sl tid tn tu single n w).1
  = (parse_raw_item_to_imdb_user_review build sl tid tn tu single n
       {| lc_time := "C"; requests := []; archive := [] |}).1.
Proof.
  rewrite !extract_stages. unfold date_of.
  destruct (review_date_results n) as [|first rest]; simpl; [done|].
  destruct (Datetime.strptime_C _); done.
Qed.

(** C9, as amended. What the field extractor returns is a function of its
    arguments alone: it does not depend on the state of the process, so two
    runs on equal inputs give equal results. It has one effect: when the
    container has a review-date text, it sets the LC_TIME locale of the
    process to "C"; nothing else is written. *)
Theorem extractor_sets_locale build sl tid tn tu single n w w2 :
  (parse_raw_item_to_imdb_user_review build sl tid tn tu single n w).1
  = (parse_raw_item_to_imdb_user_review build sl tid tn tu single n w2).1
  /\ (parse_raw_item_to_imdb_user_review build sl tid tn tu single n w).2
     = (if decide (review_date_results n = []) then w else in_C_locale w).
Proof.
  split; [|apply extract_world].
  by rewrite (extract_result build sl tid tn tu single n w),
             (extract_result build sl tid tn tu single n w2).
Qed.

(** C9 as stated fails: extracting the review rv001 in a process whose
    LC_TIME locale is "pt_BR.UTF-8" leaves the process in the "C" locale. *)
Lemma extractor_sets_locale_counterexample :
  lc_time (Page.world "pt_BR.UTF-8") = "pt_BR.UTF-8"
  /\ lc_time
       (parse_raw_item_to_imdb_user_review Page.cut_query Page.no_locale
          "tt1" None None false (Page.node_in_page Page.rv001)
          (Page.world "pt_BR.UTF-8")).2 = "C".
Proof. split; vm_compute; reflexivity. Qed.

(** ** The page parser *)

Lemma rv001_extracted build sl tid tn tu single w u :
  build "/user/ur001/?ref_=tt_urv" = Ok u ->
  parse_raw_item_to_imdb_user_review build sl tid tn tu single
    (Page.node_in_page Page.rv001) w
  = (Ok (Page.rv001_record tid tn tu single u), in_C_locale w).
Proof. intros Hu. vm_compute. rewrite Hu. by destruct single. Qed.

Lemma name_and_link_eq build anchor name href link :
  text (element anchor) = Some name ->
  valid_value_from_dict (attrib (element anchor)) "href" = Some href ->
  build (Str.strip href) = Ok link ->
  name_and_link build anchor = Ok (normalize_text [name], link).
Proof.
  intros Hname Hhref Hlink. unfold name_and_link, as_result, mbind, Result_bind.
  rewrite Hname, Hhref. cbv beta iota. by rewrite Hlink.
Qed.

Lemma page_title build reviews more t :
  build "/title/tt1/?ref_=tt_urv" = Ok t ->
  title_results (Page.root_of (Page.page reviews more))
  = [ {| document := Page.page reviews more; before := [];
         element := Page.title_link |} ] ->
  title_of build None None (Page.root_of (Page.page reviews more))
  = Ok (Some "A Film", Some t,
        <["title_relative_url" := t]> (<["title_name" := "A Film"]> ∅)).
Proof.
  intros Ht Hres. unfold title_of. rewrite Hres. cbn [truthy negb andb].
  rewrite (name_and_link_eq build _ "A Film"
             "/title/tt1/?ref_=tt_urv" t);
    [ vm_compute; reflexivity | reflexivity | vm_compute; reflexivity | ].
  change (Str.strip "/title/tt1/?ref_=tt_urv")
    with "/title/tt1/?ref_=tt_urv".
  exact Ht.
Qed.

Lemma one_review_title build t :
  build "/title/tt1/?ref_=tt_urv" = Ok t ->
  title_of build None None (Page.root_of Page.one_review)
  = Ok (Some "A Film", Some t,
        <["title_relative_url" := t]> (<["title_name" := "A Film"]> ∅)).
Proof. intros Ht. apply page_title; [done|]. vm_compute. reflexivity. Qed.

(** C1. The page that holds the one review rv001 (dated 12 March 2020,
    rated "8" and "/10", with "7 out of 9 found this helpful") parses to
    exactly one record, with review id "rv001", date "2020-03-12", user
    rating 8, maximum rating 10, helpful feedback 7 and total feedback 9. *)
Theorem one_review_page build sl fs tid single raw enc w t u :
  fs raw enc = Ok (Page.root_of Page.one_review) ->
  build "/title/tt1/?ref_=tt_urv" = Ok t ->
  build "/user/ur001/?ref_=tt_urv" = Ok u ->
  exists r,
    parse_raw_html_to_imdb_user_review_set_and_more_data build sl fs
      tid None None single raw enc w
    = (Ok ({[ r ]},
           <["title_relative_url" := t]> (<["title_name" := "A Film"]> ∅),
           ∅),
       in_C_locale w)
    /\ review_id r = Some "rv001"
    /\ review_date r = Some "2020-03-12"
    /\ user_rating r = Some 8
    /\ maximum_rating r = Some 10
    /\ helpful_feedback r = Some 7
    /\ total_feedback r = Some 9.
Proof.
  intros Hfs Ht Hu.
  exists (Page.rv001_record tid (Some "A Film") (Some t) single u).
  split; [|done].
  rewrite parse_stages, Hfs, (one_review_title build t Ht).
  replace (review_results (Page.root_of Page.one_review))
    with [Page.node_in_page Page.rv001] by (vm_compute; reflexivity).
  replace (more_data_of (Page.root_of Page.one_review))
    with (∅ : gmap string string) by (vm_compute; reflexivity).
  unfold add_reviews, for_each. unfold mbind, M_bind, mret, M_ret.
  rewrite (rv001_extracted build sl tid _ _ single w u Hu).
  by rewrite (right_id_L ∅ (∪)).
Qed.

Lemma one_review_page_witness :
  exists r,
    parse_raw_html_to_imdb_user_review_set_and_more_data
      Page.cut_query Page.no_locale
      (fun _ _ => Ok (Page.root_of Page.one_review))
      "tt1" None None false [] "utf-8" (Page.world "en_US.UTF-8")
    = (Ok ({[ r ]},
           <["title_relative_url" := "/title/tt1/"]>
             (<["title_name" := "A Film"]> ∅),
           ∅),
       in_C_locale (Page.world "en_US.UTF-8"))
    /\ review_id r = Some "rv001"
    /\ review_date r = Some "2020-03-12"
    /\ user_rating r = Some 8
    /\ maximum_rating r = Some 10
    /\ helpful_feedback r = Some 7
    /\ total_feedback r = Some 9.
Proof.
  exact (one_review_page Page.cut_query Page.no_locale
           (fun _ _ => Ok (Page.root_of Page.one_review))
           "tt1" false [] "utf-8" (Page.world "en_US.UTF-8")
           "/title/tt1/" "/user/ur001/" eq_refl eq_refl eq_refl).
Defined.

(** ** The pagination driver *)

Section Driver.

Variable build : string -> Result string.
Variable sl : string -> string -> Result (Z * Z * Z).
Variable fs : list byte -> string -> Result Node.
Variable client : nat -> URL -> Result Response.
Variables (tid : string) (single save : bool).

Abbreviation step := (crawl_step build sl fs client tid single save).
Abbreviation loop :=
  (fun fuel => crawl_loop build sl fs client fuel tid single save).
Abbreviation fetched := (pages_fetched build sl fs client tid single save).

Lemma loop_stopped fuel st w :
  load_more_data st = false -> loop fuel st w = (Ok (Some st), w).
Proof. intros H. destruct fuel; simpl; by rewrite H. Qed.

Lemma loop_step fuel st w st1 w1 :
  load_more_data st = true ->
  step st w = (Ok st1, w1) ->
  loop (S fuel) st w = loop fuel st1 w1.
Proof.
  intros Hmore Hstep. simpl. rewrite Hmore.
  unfold mbind, M_bind. by rewrite Hstep.
Qed.

Lemma loop_after_pages k fuel st w st' w' :
  fetched k st w st' w' -> loop (k + fuel)%nat st w = loop fuel st' w'.
Proof.
  induction 1 as [|k st w st1 w1 st2 w2 Hmore Hstep _ IH]; [done|].
  change (S k + fuel)%nat with (S (k + fuel)).
  by rewrite (loop_step _ _ _ _ _ Hmore Hstep).
Qed.

Lemma step_error_status st w response :
  client (length (requests w)) (current_url st) = Ok response ->
  is_error_status (status_code response) = true ->
  step st w = (Ok (stop st), requested (current_url st) w).
Proof. intros Hget Herr. rewrite crawl_step_stages. simpl. by rewrite Hget, Herr. Qed.

Lemma step_ok st w response st' w' :
  client (length (requests w)) (current_url st) = Ok response ->
  is_error_status (status_code response) = false ->
  step st w = (Ok st', w') ->
  exists s td md,
    parse_raw_html_to_imdb_user_review_set_and_more_data build sl fs tid
      (known_title_name st) (known_title_relative_url st) single
      (content_bytes response) (encoding response)
      (archived save (page_count st) (content_bytes response)
         (requested (current_url st) w))
    = (Ok (s, td, md), w')
    /\ st' = next_state st (if save then page_count st + 1 else page_count st)
               s td md.
Proof.
  intros Hget Herr. rewrite crawl_step_stages. simpl. rewrite Hget, Herr.
  destruct (parse_raw_html_to_imdb_user_review_set_and_more_data _ _ _ _ _ _ _ _ _ _)
    as [[[[s td] md]|e] w2]; [|discriminate].
  intros [= <- <-]. by exists s, td, md.
Qed.

End Driver.

(** C6. When the response to a request of the driver, after any number of
    pages fetched, has a status from 400 to 599, the crawl ends there: it
    raises nothing, sends no request after that one, whatever the number of
    requests it was allowed, and returns the set of reviews accumulated from
    the pages before. *)
Theorem error_status_ends_crawl build sl fs client tid single save_path
    k fuel w0 st w response :
  pages_fetched build sl fs client tid single (truthy save_path) k
    (initial_state tid) w0 st w ->
  load_more_data st = true ->
  client (length (requests w)) (current_url st) = Ok response ->
  400 <= status_code response < 600 ->
  crawl_imdb_user_reviews_by_title_id build sl fs client (k + S fuel)
    tid single save_path w0
  = (Ok (Some (user_review_set st)), requested (current_url st) w).
Proof.
  intros Hpages Hmore Hget [Hlo Hhi].
  unfold crawl_imdb_user_reviews_by_title_id, mbind, M_bind.
  assert (Hstep : crawl_step build sl fs client tid single (truthy save_path)
                    st w = (Ok (stop st), requested (current_url st) w)).
  { apply (step_error_status _ _ _ _ _ _ _ st w response Hget).
    unfold is_error_status. apply andb_true_intro.
    split; [by apply Z.leb_le | by apply Z.ltb_lt]. }
  rewrite (loop_after_pages _ _ _ _ _ _ _ k (S fuel) _ _ _ _ Hpages).
  rewrite (loop_step _ _ _ _ _ _ _ fuel _ _ _ _ Hmore Hstep).
  by rewrite loop_stopped.
Qed.

Lemma first_page_fetched :
  pages_fetched Page.cut_query Page.no_locale Page.parse_bytes
    Page.one_page_then_404 "tt1" false (truthy None) 1
    (initial_state "tt1") (Page.world "pt_BR.UTF-8")
    Page.after_first_page (Page.sent "C" [Page.reviews_url]).
Proof.
  eapply fetched_next; [reflexivity | by_vm | constructor].
Qed.

Lemma error_status_ends_crawl_witness :
  crawl_imdb_user_reviews_by_title_id Page.cut_query Page.no_locale
    Page.parse_bytes Page.one_page_then_404 (1 + 4) "tt1" false None
    (Page.world "pt_BR.UTF-8")
  = (Ok (Some (user_review_set Page.after_first_page)),
     requested (current_url Page.after_first_page)
       (Page.sent "C" [Page.reviews_url])).
Proof.
  exact (error_status_ends_crawl Page.cut_query Page.no_locale
           Page.parse_bytes Page.one_page_then_404 "tt1" false None 1 3
           (Page.world "pt_BR.UTF-8") Page.after_first_page
           (Page.sent "C" [Page.reviews_url]) Page.not_found
           first_page_fetched eq_refl eq_refl
           (conj (Zle_bool_imp_le 400 404 eq_refl) eq_refl)).
Defined.

(** *** What the parser and the loop body do to the world *)

Lemma extract_keeps build sl tid tn tu single n w :
  requests (parse_raw_item_to_imdb_user_review build sl tid tn tu single n w).2
  = requests w
  /\ archive (parse_raw_item_to_imdb_user_review build sl tid tn tu single n w).2
     = archive w.
Proof. rewrite extract_world. by destruct (decide _). Qed.

Lemma add_reviews_cons build sl tid tn tu single n l acc w :
  add_reviews build sl tid tn tu single (n :: l) acc w =
  match parse_raw_item_to_imdb_user_review build sl tid tn tu single n w with
  | (Ok r, w1) => add_reviews build sl tid tn tu single l ({[ r ]} ∪ acc) w1
  | (Raise e, w1) => (Raise e, w1)
  end.
Proof.
  unfold add_reviews. simpl. unfold mbind, M_bind, mret, M_ret.
  by destruct (parse_raw_item_to_imdb_user_review _ _ _ _ _ _ n w) as [[r|e] w1].
Qed.

Lemma add_reviews_keeps build sl tid tn tu single l acc w :
  requests (add_reviews build sl tid tn tu single l acc w).2 = requests w
  /\ archive (add_reviews build sl tid tn tu single l acc w).2 = archive w.
Proof.
  revert acc w. induction l as [|n l IH]; intros acc w; [done|].
  rewrite add_reviews_cons.
  destruct (extract_keeps build sl tid tn tu single n w) as [Hr Ha].
  destruct (parse_raw_item_to_imdb_user_review _ _ _ _ _ _ n w) as [[r|e] w1];
    simpl in *; [|done].
  destruct (IH ({[ r ]} ∪ acc) w1) as [Hr' Ha']. by rewrite Hr', Ha'.
Qed.

Lemma parse_keeps build sl fs tid tn tu single raw enc w :
  requests (parse_raw_html_to_imdb_user_review_set_and_more_data build sl fs
              tid tn tu single raw enc w).2 = requests w
  /\ archive (parse_raw_html_to_imdb_user_review_set_and_more_data build sl fs
                tid tn tu single raw enc w).2 = archive w.
Proof.
  rewrite parse_stages. destruct (fs raw enc) as [root|]; [|done].
  destruct (title_of build tn tu root) as [[[tn' tu'] td]|]; [|done].
  destruct (add_reviews_keeps build sl tid tn' tu' single (review_results root) ∅ w)
    as [Hr Ha].
  by destruct (add_reviews _ _ _ _ _ _ _ _ _) as [[s|e] w1].
Qed.

(** Each run of the loop body sends exactly one request, to the current
    URL. *)
Lemma step_requests build sl fs client tid single save st w :
  requests (crawl_step build sl fs client tid single save st w).2
  = requests w ++ [current_url st].
Proof.
  rewrite crawl_step_stages. simpl.
  destruct (client _ _) as [response|]; [|done].
  destruct (is_error_status _); [done|].
  match goal with
  | |- context [parse_raw_html_to_imdb_user_review_set_and_more_data
                  ?b ?s ?f ?t ?n ?u ?g ?r ?e ?w0] =>
      destruct (parse_keeps b s f t n u g r e w0) as [Hr _];
      destruct (parse_raw_html_to_imdb_user_review_set_and_more_data
                  b s f t n u g r e w0) as [[[[rs td] md]|e'] w2]
  end; simpl in *; rewrite Hr; by destruct save.
Qed.

(** C7. When the page just fetched reports a continuation with the key
    "abc123" and the ajax path "/title/tt1/_ajax", and no base path was
    learned before, the loop goes on, and the URL of its next request is the
    base host with that path and exactly the two query parameters
    ref_=undefined, the fixed marker, and paginationKey=abc123. *)
Theorem next_url_from_continuation build sl fs client tid single save
    st w response s td md w2 :
  client (length (requests w)) (current_url st) = Ok response ->
  is_error_status (status_code response) = false ->
  parse_raw_html_to_imdb_user_review_set_and_more_data build sl fs tid
    (known_title_name st) (known_title_relative_url st) single
    (content_bytes response) (encoding response)
    (archived save (page_count st) (content_bytes response)
       (requested (current_url st) w))
  = (Ok (s, td, md), w2) ->
  md !! "data-key" = Some "abc123" ->
  md !! "data-ajaxurl" = Some "/title/tt1/_ajax" ->
  load_more_data_base_url st = None ->
  exists st',
    crawl_step build sl fs client tid single save st w = (Ok st', w2)
    /\ load_more_data st' = true
    /\ current_url st'
       = {| scheme := "https"; host := "www.imdb.com";
            path := "/title/tt1/_ajax";
            query := [("ref_", "undefined"); ("paginationKey", "abc123")] |}
    /\ requests (crawl_step build sl fs client tid single save st' w2).2
       = requests w2 ++ [current_url st'].
Proof.
  intros Hget Herr Hparse Hkey Hajax Hbase.
  eexists. split; [|split; [|split]].
  - rewrite crawl_step_stages. simpl. rewrite Hget, Herr, Hparse. reflexivity.
  - unfold next_state, valid_value_from_dict. by rewrite Hkey, Hajax, Hbase.
  - unfold next_state, valid_value_from_dict. by rewrite Hkey, Hajax, Hbase.
  - apply step_requests.
Qed.

Lemma first_page_parsed :
  parse_raw_html_to_imdb_user_review_set_and_more_data Page.cut_query
    Page.no_locale Page.parse_bytes "tt1" None None false ["1"%byte] "utf-8"
    (Page.sent "pt_BR.UTF-8" [Page.reviews_url])
  = (Ok ({[ Page.record "rv001" "2020-03-12" ]},
         <["title_relative_url" := "/title/tt1/"]>
           (<["title_name" := "A Film"]> ∅),
         <["data-ajaxurl" := "/title/tt1/_ajax"]>
           (<["data-key" := "abc123"]> ∅)),
     Page.sent "C" [Page.reviews_url]).
Proof. by_vm. Qed.

Lemma next_url_from_continuation_witness :
  exists st',
    crawl_step Page.cut_query Page.no_locale Page.parse_bytes Page.three_pages
      "tt1" false false (initial_state "tt1") (Page.world "pt_BR.UTF-8")
    = (Ok st', Page.sent "C" [Page.reviews_url])
    /\ load_more_data st' = true
    /\ current_url st'
       = {| scheme := "https"; host := "www.imdb.com";
            path := "/title/tt1/_ajax";
            query := [("ref_", "undefined"); ("paginationKey", "abc123")] |}
    /\ requests (crawl_step Page.cut_query Page.no_locale Page.parse_bytes
                   Page.three_pages "tt1" false false st'
                   (Page.sent "C" [Page.reviews_url])).2
       = requests (Page.sent "C" [Page.reviews_url]) ++ [current_url st'].
Proof.
  apply (next_url_from_continuation Page.cut_query Page.no_locale
           Page.parse_bytes Page.three_pages "tt1" false false
           (initial_state "tt1") (Page.world "pt_BR.UTF-8")
           (Page.ok_response ["1"%byte])
           {[ Page.record "rv001" "2020-03-12" ]}
           (<["title_relative_url" := "/title/tt1/"]>
              (<["title_name" := "A Film"]> ∅))
           (<["data-ajaxurl" := "/title/tt1/_ajax"]>
              (<["data-key" := "abc123"]> ∅))
           (Page.sent "C" [Page.reviews_url]));
    [reflexivity | reflexivity | | by_vm | by_vm | reflexivity].
  apply first_page_parsed.
Defined.


(** *** The load-more marker *)

Lemma valid_value_truthy d key v :
  valid_value_from_dict d key = Some v -> d !! key = Some v /\ truthy (Some v) = true.
Proof.
  unfold valid_value_from_dict. destruct (d !! key) as [x|]; [|done].
  destruct (truthy (Some x)) eqn:Hx; [|done]. by intros [= <-].
Qed.

Lemma valid_value_insert d key v :
  truthy (Some v) = true -> valid_value_from_dict (<[key := v]> d) key = Some v.
Proof.
  intros Hv. unfold valid_value_from_dict. by rewrite lookup_insert_eq, Hv.
Qed.

Lemma valid_value_insert_ne d key key' v :
  key' ≠ key ->
  valid_value_from_dict (<[key' := v]> d) key = valid_value_from_dict d key.
Proof.
  intros Hne. unfold valid_value_from_dict. by rewrite lookup_insert_ne.
Qed.

Lemma valid_value_none d key :
  valid_value_from_dict d key = None ->
  d !! key = None \/ d !! key = Some "".
Proof.
  unfold valid_value_from_dict. by destruct (d !! key) as [[|c x]|]; auto.
Qed.

(** The continuation data holds, under each of its two keys, the value of
    the attribute of the first marker when that value is not empty. *)
Lemma more_data_of_marker root m rest :
  load_more_data_results root = m :: rest ->
  (more_data_of root !! "data-key"
   = valid_value_from_dict (attrib (element m)) "data-key")
  /\ (more_data_of root !! "data-ajaxurl"
      = valid_value_from_dict (attrib (element m)) "data-ajaxurl").
Proof.
  intros Hres. unfold more_data_of. rewrite Hres. cbn [foldl].
  destruct (valid_value_from_dict _ "data-key") as [k|],
           (valid_value_from_dict _ "data-ajaxurl") as [a|];
    split;
    rewrite ?lookup_insert_eq, ?(lookup_insert_ne _ "data-ajaxurl" "data-key"),
      ?lookup_insert_eq, ?lookup_empty; done.
Qed.

Lemma valid_value_more_data root m rest key :
  load_more_data_results root = m :: rest ->
  key = "data-key" \/ key = "data-ajaxurl" ->
  valid_value_from_dict (more_data_of root) key
  = valid_value_from_dict (attrib (element m)) key.
Proof.
  intros Hres Hkey. destruct (more_data_of_marker root m rest Hres) as [Hk Ha].
  assert (Hl : more_data_of root !! key
               = valid_value_from_dict (attrib (element m)) key)
    by (by destruct Hkey as [-> | ->]).
  unfold valid_value_from_dict at 1. rewrite Hl.
  destruct (valid_value_from_dict _ key) as [v|] eqn:Hv; [|done].
  apply valid_value_truthy in Hv as [_ Hv]. by rewrite Hv.
Qed.

Lemma parse_more_data build sl fs tid tn tu single raw enc w s td md w' root :
  parse_raw_html_to_imdb_user_review_set_and_more_data build sl fs
    tid tn tu single raw enc w = (Ok (s, td, md), w') ->
  fs raw enc = Ok root ->
  md = more_data_of root.
Proof.
  rewrite parse_stages. intros H Hfs. rewrite Hfs in H.
  destruct (title_of build tn tu root) as [[[tn' tu'] td']|]; [|discriminate].
  destruct (add_reviews _ _ _ _ _ _ _ _ _) as [[s'|e] w1]; [|discriminate].
  by injection H as _ _ <- _.
Qed.

Lemma next_state_without_key st pages s td md :
  valid_value_from_dict md "data-key" = None ->
  load_more_data (next_state st pages s td md) = false.
Proof. intros H. unfold next_state. by rewrite H. Qed.

Lemma next_state_without_base st pages s td md :
  valid_value_from_dict md "data-ajaxurl" = None ->
  load_more_data_base_url st = None ->
  load_more_data (next_state st pages s td md) = false.
Proof.
  intros Ha Hb. unfold next_state. rewrite Ha, Hb.
  by destruct (valid_value_from_dict md "data-key").
Qed.

Lemma next_state_known_base st pages s td md key base :
  valid_value_from_dict md "data-key" = Some key ->
  load_more_data_base_url st = Some base ->
  load_more_data (next_state st pages s td md) = true
  /\ current_url (next_state st pages s td md)
     = with_query base [("ref_", "undefined"); ("paginationKey", key)].
Proof. intros Hk Hb. unfold next_state. by rewrite Hk, Hb. Qed.

Lemma step_parsed build sl fs client tid single save st w response s td md w2 :
  client (length (requests w)) (current_url st) = Ok response ->
  is_error_status (status_code response) = false ->
  parse_raw_html_to_imdb_user_review_set_and_more_data build sl fs tid
    (known_title_name st) (known_title_relative_url st) single
    (content_bytes response) (encoding response)
    (archived save (page_count st) (content_bytes response)
       (requested (current_url st) w))
  = (Ok (s, td, md), w2) ->
  crawl_step build sl fs client tid single save st w
  = (Ok (next_state st (if save then page_count st + 1 else page_count st)
           s td md), w2).
Proof.
  intros Hget Herr Hparse. rewrite crawl_step_stages. simpl.
  by rewrite Hget, Herr, Hparse.
Qed.

(** C8, as amended. For a fetched page whose first load-more marker has
    no (non-empty) key, the parser reports no key and the crawl ends at that
    page. For a marker that has no (non-empty) ajax path, the parser reports
    no path; the crawl ends at that page when no base path was learned from
    an earlier page, and otherwise goes on, with the key of this page and
    the base path learned earlier. *)
Theorem marker_without_continuation build sl fs client tid single save
    st w response root m rest s td md w2 :
  client (length (requests w)) (current_url st) = Ok response ->
  is_error_status (status_code response) = false ->
  fs (content_bytes response) (encoding response) = Ok root ->
  load_more_data_results root = m :: rest ->
  parse_raw_html_to_imdb_user_review_set_and_more_data build sl fs tid
    (known_title_name st) (known_title_relative_url st) single
    (content_bytes response) (encoding response)
    (archived save (page_count st) (content_bytes response)
       (requested (current_url st) w))
  = (Ok (s, td, md), w2) ->
  exists st',
    crawl_step build sl fs client tid single save st w = (Ok st', w2)
    /\ (valid_value_from_dict (attrib (element m)) "data-key" = None ->
        md !! "data-key" = None
        /\ load_more_data st' = false
        /\ forall fuel,
             crawl_loop build sl fs client fuel tid single save st' w2
             = (Ok (Some st'), w2))
    /\ (valid_value_from_dict (attrib (element m)) "data-ajaxurl" = None ->
        md !! "data-ajaxurl" = None
        /\ (load_more_data_base_url st = None ->
            load_more_data st' = false
            /\ forall fuel,
                 crawl_loop build sl fs client fuel tid single save st' w2
                 = (Ok (Some st'), w2))
        /\ (forall key base,
              valid_value_from_dict (attrib (element m)) "data-key" = Some key ->
              load_more_data_base_url st = Some base ->
              load_more_data st' = true
              /\ current_url st'
                 = with_query base
                     [("ref_", "undefined"); ("paginationKey", key)])).
Proof.
  intros Hget Herr Hfs Hres Hparse.
  pose proof (parse_more_data _ _ _ _ _ _ _ _ _ _ _ _ _ _ _ Hparse Hfs) as ->.
  destruct (more_data_of_marker root m rest Hres) as [Hk Ha].
  eexists. split; [by apply (step_parsed _ _ _ _ _ _ _ _ _ response)|]. split.
  - intros Hno. rewrite Hk. split; [done|].
    assert (load_more_data
              (next_state st (if save then page_count st + 1 else page_count st)
                 s td (more_data_of root)) = false) as Hstop.
    { apply next_state_without_key.
      by rewrite (valid_value_more_data root m rest _ Hres); [|left]. }
    split; [done|]. intros fuel. by apply loop_stopped.
  - intros Hno. rewrite Ha. split; [done|]. split.
    + intros Hbase.
      assert (load_more_data
                (next_state st (if save then page_count st + 1 else page_count st)
                   s td (more_data_of root)) = false) as Hstop.
      { apply next_state_without_base; [|done].
        by rewrite (valid_value_more_data root m rest _ Hres); [|right]. }
      split; [done|]. intros fuel. by apply loop_stopped.
    + intros key base Hkey Hbase. apply next_state_known_base; [|done].
      by rewrite (valid_value_more_data root m rest _ Hres); [|left].
Qed.

Lemma second_page_parsed :
  parse_raw_html_to_imdb_user_review_set_and_more_data Page.cut_query
    Page.no_locale Page.parse_bytes "tt1" (Some "A Film") (Some "/title/tt1/")
    false ["2"%byte] "utf-8"
    (Page.sent "C" [Page.reviews_url; Page.ajax_url "abc123"])
  = (Ok ({[ Page.record "rv002" "2020-03-13" ]}, ∅, <["data-key" := "k2"]> ∅),
     Page.sent "C" [Page.reviews_url; Page.ajax_url "abc123"]).
Proof. by_vm. Qed.

Lemma marker_without_continuation_witness :
  exists st',
    crawl_step Page.cut_query Page.no_locale Page.parse_bytes Page.three_pages
      "tt1" false false Page.after_first_page (Page.sent "C" [Page.reviews_url])
    = (Ok st', Page.sent "C" [Page.reviews_url; Page.ajax_url "abc123"])
    /\ load_more_data st' = true
    /\ current_url st' = Page.ajax_url "k2".
Proof.
  destruct (marker_without_continuation Page.cut_query Page.no_locale
              Page.parse_bytes Page.three_pages "tt1" false false
              Page.after_first_page (Page.sent "C" [Page.reviews_url])
              (Page.ok_response ["2"%byte]) (Page.root_of Page.key_only_page)
              {| document := Page.key_only_page;
                 before := [];
                 element := Page.load_more [("data-key", "k2")] |}
              []
              {[ Page.record "rv002" "2020-03-13" ]} ∅
              (<["data-key" := "k2"]> ∅)
              (Page.sent "C" [Page.reviews_url; Page.ajax_url "abc123"])
              eq_refl eq_refl eq_refl ltac:(by_vm) second_page_parsed)
    as (st' & Hstep & _ & Hajax).
  exists st'. split; [exact Hstep|].
  exact (proj2 (proj2 (Hajax ltac:(by_vm))) "k2" Page.ajax_base
           ltac:(by_vm) eq_refl).
Defined.

Lemma two_pages_fetched :
  pages_fetched Page.cut_query Page.no_locale Page.parse_bytes
    Page.three_pages "tt1" false false 2
    (initial_state "tt1") (Page.world "pt_BR.UTF-8")
    Page.after_second_page
    (Page.sent "C" [Page.reviews_url; Page.ajax_url "abc123"]).
Proof.
  eapply (fetched_next _ _ _ _ _ _ _ _ _ _ Page.after_first_page
            (Page.sent "C" [Page.reviews_url])); [reflexivity | by_vm |].
  eapply fetched_next; [reflexivity | by_vm | constructor].
Qed.

(** C8 as stated fails: the marker of the second of the three pages has
    no ajax path, and the crawl does not end at that page: the loop is still
    running after it, and its third request asks for the page of the key
    "k2" under the path learned from the first page. *)
Lemma marker_without_continuation_counterexample :
  load_more_data_results (Page.root_of Page.key_only_page)
  = [ {| document := Page.key_only_page; before := [];
         element := Page.load_more [("data-key", "k2")] |} ]
  /\ attrib (Page.load_more [("data-key", "k2")]) !! "data-ajaxurl" = None
  /\ pages_fetched Page.cut_query Page.no_locale Page.parse_bytes
       Page.three_pages "tt1" false false 2
       (initial_state "tt1") (Page.world "pt_BR.UTF-8")
       Page.after_second_page
       (Page.sent "C" [Page.reviews_url; Page.ajax_url "abc123"])
  /\ load_more_data Page.after_second_page = true
  /\ requests
       (crawl_step Page.cut_query Page.no_locale Page.parse_bytes
          Page.three_pages "tt1" false false Page.after_second_page
          (Page.sent "C" [Page.reviews_url; Page.ajax_url "abc123"])).2
     = [Page.reviews_url; Page.ajax_url "abc123"; Page.ajax_url "k2"].
Proof.
  split; [by_vm|]. split; [by_vm|]. split; [exact two_pages_fetched|].
  split; [reflexivity|]. by rewrite step_requests.
Qed.

(** C10. An attribute whose value is the empty string counts as absent:
    [valid_value_from_dict] gives nothing for it; a record extracted from a
    container whose data-review-id is empty has a null review id; and a page
    whose first load-more marker has an empty data-key gives continuation
    data without a key, after which the crawl ends. *)
Theorem empty_attribute_is_absent build sl fs client tid single save :
  (forall d key, d !! key = Some "" -> valid_value_from_dict d key = None)
  /\ (forall tn tu n w r w',
        attrib (element n) !! "data-review-id" = Some "" ->
        parse_raw_item_to_imdb_user_review build sl tid tn tu single n w
        = (Ok r, w') ->
        review_id r = None)
  /\ (forall st w response root m rest s td md w2,
        client (length (requests w)) (current_url st) = Ok response ->
        is_error_status (status_code response) = false ->
        fs (content_bytes response) (encoding response) = Ok root ->
        load_more_data_results root = m :: rest ->
        attrib (element m) !! "data-key" = Some "" ->
        parse_raw_html_to_imdb_user_review_set_and_more_data build sl fs tid
          (known_title_name st) (known_title_relative_url st) single
          (content_bytes response) (encoding response)
          (archived save (page_count st) (content_bytes response)
             (requested (current_url st) w))
        = (Ok (s, td, md), w2) ->
        md !! "data-key" = None
        /\ exists st',
             crawl_step build sl fs client tid single save st w = (Ok st', w2)
             /\ load_more_data st' = false
             /\ forall fuel,
                  crawl_loop build sl fs client fuel tid single save st' w2
                  = (Ok (Some st'), w2)).
Proof.
  assert (Hempty : forall (d : gmap string string) key,
             d !! key = Some "" -> valid_value_from_dict d key = None).
  { intros d key Hd. unfold valid_value_from_dict. by rewrite Hd. }
  split; [exact Hempty|]. split.
  - intros tn tu n w r w' Hid (d & fb & rt & au & _ & _ & _ & _ & ->)%extract_ok.
    simpl. by rewrite (Hempty _ _ Hid).
  - intros st w response root m rest s td md w2 Hget Herr Hfs Hres Hkey Hparse.
    pose proof (parse_more_data _ _ _ _ _ _ _ _ _ _ _ _ _ _ _ Hparse Hfs) as ->.
    destruct (more_data_of_marker root m rest Hres) as [Hk _].
    split; [by rewrite Hk, (Hempty _ _ Hkey)|].
    eexists. split; [by apply (step_parsed _ _ _ _ _ _ _ _ _ response)|].
    assert (load_more_data
              (next_state st (if save then page_count st + 1 else page_count st)
                 s td (more_data_of root)) = false) as Hstop.
    { apply next_state_without_key.
      rewrite (valid_value_more_data root m rest _ Hres); [|by left].
      by apply Hempty. }
    split; [done|]. intros fuel. by apply loop_stopped.
Qed.

Lemma empty_key_page_parsed :
  parse_raw_html_to_imdb_user_review_set_and_more_data Page.cut_query
    Page.no_locale Page.parse_bytes "tt1" None None false ["4"%byte] "utf-8"
    (Page.sent "pt_BR.UTF-8" [Page.reviews_url])
  = (Ok ({[ Page.record "rv001" "2020-03-12" ]},
         <["title_relative_url" := "/title/tt1/"]>
           (<["title_name" := "A Film"]> ∅),
         <["data-ajaxurl" := "/title/tt1/_ajax"]> ∅),
     Page.sent "C" [Page.reviews_url]).
Proof. by_vm. Qed.

Lemma empty_id_extracted :
  parse_raw_item_to_imdb_user_review Page.cut_query Page.no_locale "tt1"
    None None false (Page.node_in_page Page.empty_id) (Page.world "C")
  = (Ok {| review_id := None; review_date := Some "2020-03-12";
           review_title := Some "A fine film"; title_id := "tt1";
           title_name := None; title_relative_url := None;
           total_feedback := Some 9; helpful_feedback := Some 7;
           maximum_rating := Some 10; user_rating := Some 8;
           has_spoilers := false; user_name := Some "alice";
           user_relative_url := Some "/user/ur001/";
           content := Some ("Line one." +:+ String "010" "Line two.") |},
     Page.world "C").
Proof. by_vm. Qed.

Lemma empty_attribute_is_absent_witness :
  (attrib (element (Page.node_in_page Page.empty_id)) !! "data-review-id"
   = Some "" /\
   exists r, (parse_raw_item_to_imdb_user_review Page.cut_query Page.no_locale
                "tt1" None None false (Page.node_in_page Page.empty_id)
                (Page.world "C")).1 = Ok r
             /\ review_id r = None)
  /\ exists st',
       crawl_step Page.cut_query Page.no_locale Page.parse_bytes
         Page.empty_key_server "tt1" false false (initial_state "tt1")
         (Page.world "pt_BR.UTF-8")
       = (Ok st', Page.sent "C" [Page.reviews_url])
       /\ load_more_data st' = false.
Proof.
  pose proof (empty_attribute_is_absent Page.cut_query Page.no_locale
                Page.parse_bytes Page.empty_key_server "tt1" false false)
    as (_ & Hid & Hkey).
  split.
  - split; [by_vm|]. eexists. split; [by rewrite empty_id_extracted|].
    exact (Hid None None _ _ _ _ ltac:(by_vm) empty_id_extracted).
  - destruct (Hkey (initial_state "tt1") (Page.world "pt_BR.UTF-8")
                (Page.ok_response ["4"%byte]) (Page.root_of Page.empty_key_page)
                {| document := Page.empty_key_page; before := [];
                   element := Page.load_more
                     [("data-key", ""); ("data-ajaxurl", "/title/tt1/_ajax")] |}
                [] _ _ _ _ eq_refl eq_refl eq_refl ltac:(by_vm) ltac:(by_vm)
                empty_key_page_parsed)
      as (_ & st' & Hstep & Hstop & _).
    exists st'. split; [exact Hstep | exact Hstop].
Defined.


(** ** The matcher, and the numbers the patterns capture *)

Lemma run_sound {R} r : forall s g (k : string -> gmap string string -> option R) x,
  Re.run r s g k = Some x ->
  exists s' g', matches r s g s' g' /\ k s' g' = Some x.
Proof.
  induction r as [|p|r1 IH1 r2 IH2|r1 IH1 r2 IH2|r1 IH1|name r1 IH1];
    intros s g k x; simpl.
  - intros H. exists s, g. split; [constructor|done].
  - destruct s as [|c s']; [done|]. destruct (p c) eqn:Hp; [|done].
    intros H. exists s', g. split; [by constructor|done].
  - intros (s1 & g1 & Hm1 & (s2 & g2 & Hm2 & Hk)%IH2)%IH1.
    exists s2, g2. split; [by econstructor|done].
  - destruct (Re.run r1 s g k) as [y|] eqn:H1.
    + intros [= <-]. apply IH1 in H1 as (s' & g' & Hm & Hk).
      exists s', g'. split; [by apply matches_alt_l|done].
    + intros (s' & g' & Hm & Hk)%IH2.
      exists s', g'. split; [by apply matches_alt_r|done].
  - generalize (String.length s) as n. intros n. revert s g.
    induction n as [|n IHn]; intros s g.
    + intros H. exists s, g. split; [constructor|done].
    + match goal with
      | |- match ?m with _ => _ end = _ -> _ => destruct m as [y|] eqn:Hr
      end.
      * intros [= <-]. apply IH1 in Hr as (s1 & g1 & Hm1 & Hk).
        destruct (_ <? _)%nat; [|done].
        apply IHn in Hk as (s2 & g2 & Hm2 & Hk).
        exists s2, g2. split; [by econstructor|done].
      * intros H. exists s, g. split; [constructor|done].
  - intros (s' & g' & Hm & Hk)%IH1.
    exists s', (<[name := Re.consumed s s']> g'). split; [by constructor|done].
Qed.

Lemma all_chars_app q a b :
  all_chars q a -> all_chars q b -> all_chars q (a +:+ b).
Proof. induction a as [|c a IH]; [done|]. intros [Hc Ha] Hb. split; auto. Qed.

Lemma append_assoc (a b c : string) : (a +:+ b) +:+ c = a +:+ (b +:+ c).
Proof. induction a as [|x a IH]; [done|]. change (String x ((a +:+ b) +:+ c) = String x (a +:+ (b +:+ c))). by rewrite IH. Qed.

Lemma matches_split r s g s' g' :
  matches r s g s' g' ->
  exists pre,
    s = pre +:+ s'
    /\ (forall q, within q r -> all_chars q pre)
    /\ (starts_with_digit r ->
        exists c pre', pre = String c pre' /\ Str.isdecimal c = true).
Proof.
  induction 1 as [s g|p c s g Hp|r1 r2 s g s1 g1 s2 g2 _ IH1 _ IH2
                  |r1 r2 s g s' g' _ IH|r1 r2 s g s' g' _ IH
                  |r s g|r s g s1 g1 s2 g2 _ IH1 _ IH2|name r s g s' g' _ IH].
  - exists "". split; [done|]. split; [done|]. by intros [].
  - exists (String c ""). split; [done|]. split.
    + intros q Hq. split; [by apply Hq|done].
    + intros Hd. exists c, "". auto.
  - destruct IH1 as (p1 & -> & Hq1 & Hd1), IH2 as (p2 & -> & Hq2 & Hd2).
    exists (p1 +:+ p2). split; [by rewrite append_assoc|]. split.
    + intros q [H1 H2]. apply all_chars_app; auto.
    + intros (c & pre' & -> & Hc)%Hd1. by exists c, (pre' +:+ p2).
  - destruct IH as (pre & -> & Hq & Hd). exists pre. split; [done|].
    split; [by intros q [??]; auto|by intros [??]; auto].
  - destruct IH as (pre & -> & Hq & Hd). exists pre. split; [done|].
    split; [by intros q [??]; auto|by intros [??]; auto].
  - exists "". split; [done|]. split; [done|]. by intros [].
  - destruct IH1 as (p1 & -> & Hq1 & Hd1), IH2 as (p2 & -> & Hq2 & Hd2).
    exists (p1 +:+ p2). split; [by rewrite append_assoc|]. split; [|by intros []].
    intros q Hq. apply all_chars_app; auto.
  - destruct IH as (pre & -> & Hq & Hd). by exists pre.
Qed.

Lemma length_app (a b : string) :
  String.length (a +:+ b) = (String.length a + String.length b)%nat.
Proof.
  induction a as [|x a IH]; [done|].
  change (S (String.length (a +:+ b)) = S (String.length a + String.length b)).
  by rewrite IH.
Qed.

Lemma take_app (a b : string) : Str.take (String.length a) (a +:+ b) = a.
Proof.
  induction a as [|x a IH]; [by destruct b|].
  change (String x (Str.take (String.length a) (a +:+ b)) = String x a).
  by rewrite IH.
Qed.

Lemma consumed_app pre rest : Re.consumed (pre +:+ rest) rest = pre.
Proof.
  unfold Re.consumed. rewrite length_app.
  replace (String.length pre + String.length rest - String.length rest)%nat
    with (String.length pre) by lia.
  apply take_app.
Qed.

Lemma matches_numerals q r s g s' g' :
  matches r s g s' g' ->
  groups_capture_numerals q r ->
  (forall name v, g !! name = Some v -> numeral q v) ->
  forall name v, g' !! name = Some v -> numeral q v.
Proof.
  induction 1 as [s g|p c s g Hp|r1 r2 s g s1 g1 s2 g2 _ IH1 _ IH2
                  |r1 r2 s g s' g' _ IH|r1 r2 s g s' g' _ IH
                  |r s g|r s g s1 g1 s2 g2 _ IH1 _ IH2|name r s g s' g' Hm IH];
    simpl; try done.
  - intros [H1 H2] Hg. by apply IH2, IH1.
  - intros [H1 H2]. by apply IH.
  - intros [H1 H2]. by apply IH.
  - intros Hr Hg. by apply IH2, IH1.
  - intros (Hq & Hd & Hr) Hg name' v.
    destruct (decide (name = name')) as [->|Hne].
    + rewrite lookup_insert_eq. intros [= <-].
      destruct (matches_split _ _ _ _ _ Hm) as (pre & -> & Hall & Hfirst).
      rewrite consumed_app.
      destruct (Hfirst Hd) as (c & pre' & -> & Hc). split; [done|].
      by apply (Hall q).
    + rewrite lookup_insert_ne by done. by apply IH.
Qed.

Lemma matches_keeps r s g s' g' name :
  matches r s g s' g' -> is_Some (g !! name) -> is_Some (g' !! name).
Proof.
  induction 1; auto. intros Hg.
  destruct (decide (name0 = name)) as [->|Hne].
  - rewrite lookup_insert_eq. by eexists.
  - rewrite lookup_insert_ne by done. auto.
Qed.

Lemma matches_binds r s g s' g' name :
  matches r s g s' g' -> binds name r = true -> is_Some (g' !! name).
Proof.
  induction 1 as [s g|p c s g Hp|r1 r2 s g s1 g1 s2 g2 H1 IH1 H2 IH2
                  |r1 r2 s g s' g' _ IH|r1 r2 s g s' g' _ IH
                  |r s g|r s g s1 g1 s2 g2 _ IH1 _ IH2|name' r s g s' g' Hm IH];
    simpl; try done.
  - intros [Hb|Hb]%orb_true_iff; [|by apply IH2].
    eapply matches_keeps; [exact H2|by apply IH1].
  - intros [Hb1 Hb2]%andb_true_iff. by apply IH.
  - intros [Hb1 Hb2]%andb_true_iff. by apply IH.
  - intros [Hb|Hb]%orb_true_iff.
    + apply bool_decide_eq_true in Hb as ->. rewrite lookup_insert_eq. by eexists.
    + destruct (decide (name' = name)) as [->|Hne].
      * rewrite lookup_insert_eq. by eexists.
      * rewrite lookup_insert_ne by done. by apply IH.
Qed.

Lemma isdecimal_not_space c : Str.isdecimal c = true -> Str.isspace c = false.
Proof.
  unfold Str.isdecimal, Str.isspace. cbv zeta. generalize (Str.code c). intros n H.
  apply andb_true_iff in H as [H1%Z.leb_le H2%Z.leb_le].
  repeat (apply orb_false_iff; split); try (apply andb_false_iff);
    try (apply Z.eqb_neq); lia.
Qed.

Lemma rev_app_rev_app (s a b : string) :
  String.rev_app (String.rev_app s a) b = String.rev_app a (s +:+ b).
Proof.
  revert a b. induction s as [|c s IH]; intros a b; [done|].
  simpl. by rewrite IH.
Qed.

Lemma rev_rev (s : string) : String.rev (String.rev s) = s.
Proof.
  unfold String.rev. rewrite rev_app_rev_app. simpl.
  induction s as [|c s IH]; [done|].
  change (String c (s +:+ "") = String c s). by rewrite IH.
Qed.

Lemma all_chars_rev_app q s a :
  all_chars q s -> all_chars q a -> all_chars q (String.rev_app s a).
Proof.
  revert a. induction s as [|c s IH]; intros a; [done|].
  intros [Hc Hs] Ha. simpl. apply IH; [done|]. by split.
Qed.

Lemma rev_app_nonempty s c a : String.rev_app s (String c a) <> "".
Proof. revert c a. induction s as [|x s IH]; intros c a; simpl; [done|apply IH]. Qed.

Lemma strip_digits s : all_chars Str.isdecimal s -> Str.strip s = s.
Proof.
  intros Hs. unfold Str.strip, Str.lstrip, Str.rstrip.
  assert (Hdrop : forall t, all_chars Str.isdecimal t ->
                            Str.drop_while Str.isspace t = t).
  { intros [|c t]; [done|]. intros [Hc _]. simpl.
    by rewrite (isdecimal_not_space c Hc). }
  rewrite (Hdrop s Hs), Hdrop, rev_rev; [done|].
  by apply all_chars_rev_app.
Qed.

Lemma int_digits_all s acc b :
  all_chars Str.isdecimal s -> s <> "" \/ b = true ->
  is_Some (Str.int_digits acc b s).
Proof.
  revert acc b. induction s as [|c s IH]; intros acc b Hs Hne; simpl.
  - destruct Hne as [Hne| ->]; [done|by eexists].
  - destruct Hs as [Hc Hs]. rewrite Hc. apply IH; auto.
Qed.

Lemma to_int_digits s :
  all_chars Str.isdecimal s -> s <> "" -> is_Some (Str.to_int s).
Proof.
  intros Hs Hne. unfold Str.to_int. rewrite (strip_digits s Hs).
  destruct s as [|c s]; [done|]. destruct Hs as [Hc Hs].
  assert (Hsome : is_Some (Str.int_digits 0 false (String c s))).
  { apply int_digits_all; [by split|by left]. }
  destruct c as [[] [] [] [] [] [] [] []]; try discriminate Hc; exact Hsome.
Qed.

Lemma remove_commas v :
  numeral digit_or_comma v ->
  all_chars Str.isdecimal (Str.remove "," v) /\ Str.remove "," v <> "".
Proof.
  assert (Hall : forall s, all_chars digit_or_comma s ->
                           all_chars Str.isdecimal (Str.remove "," s)).
  { induction s as [|c s IH]; [done|]. intros [Hc Hs]. simpl.
    destruct (Ascii.eqb c ",") eqn:Hcomma; [by apply IH|].
    split; [|by apply IH].
    unfold digit_or_comma in Hc. rewrite Hcomma in Hc.
    by rewrite orb_false_r in Hc. }
  destruct v as [|c v]; [done|]. intros [Hc Hv]. split; [by apply Hall|].
  simpl. destruct (Ascii.eqb c ",") eqn:Hcomma; [|done].
  apply Ascii.eqb_eq in Hcomma as ->. discriminate Hc.
Qed.

Lemma numeral_of_match q r name s d rest :
  Re.match_ r s = Some (d, rest) ->
  groups_capture_numerals q r ->
  binds name r = true ->
  exists v, valid_value_from_dict d name = Some v /\ numeral q v.
Proof.
  unfold Re.match_. intros (s' & g' & Hm & [= <- <-])%run_sound Hq Hb.
  destruct (matches_binds _ _ _ _ _ name Hm Hb) as [v Hv].
  assert (Hn : numeral q v).
  { apply (matches_numerals q _ _ _ _ _ Hm Hq) with (name := name); [|done].
    intros name' v'. by rewrite lookup_empty. }
  exists v. split; [|done]. unfold valid_value_from_dict. rewrite Hv.
  by destruct v.
Qed.

Ltac char_cases :=
  intros c; destruct c as [[] [] [] [] [] [] [] []]; vm_compute; congruence.

Lemma found_helpful_captures :
  groups_capture_numerals digit_or_comma FOUND_HELPFUL_REGEX.
Proof. repeat split; char_cases. Qed.

Lemma maximum_rating_captures :
  groups_capture_numerals Str.isdecimal MAXIMUM_RATING_REGEX.
Proof. repeat split; char_cases. Qed.

(** The block of the helpful phrase never raises. *)
Lemma feedback_of_ok n : is_ok (feedback_of n) = true.
Proof.
  unfold feedback_of. destruct (found_helpful_results n) as [|x l]; [done|].
  destruct (Re.match_ _ _) as [[d rest]|] eqn:Hm; [|done].
  destruct (numeral_of_match _ _ "total" _ _ _ Hm found_helpful_captures eq_refl)
    as (t & -> & [Ht Hne]%remove_commas).
  destruct (numeral_of_match _ _ "helpful" _ _ _ Hm found_helpful_captures eq_refl)
    as (h & -> & [Hh Hne']%remove_commas).
  destruct (to_int_digits _ Ht Hne) as [total Htotal].
  destruct (to_int_digits _ Hh Hne') as [helpful Hhelpful].
  simpl. rewrite Htotal. simpl. by rewrite Hhelpful.
Qed.

(** ** Containers and pages that are read without an exception *)











(** * Further properties of the code *)

(** ** The numbers and the date of a record *)

Lemma digit_value_bounds c :
  Str.isdecimal c = true -> 0 <= Str.digit_value c <= 9.
Proof.
  unfold Str.isdecimal, Str.digit_value. cbv zeta.
  intros [H1%Z.leb_le H2%Z.leb_le]%andb_true_iff. lia.
Qed.

Lemma int_digits_nonneg s acc b v :
  all_chars Str.isdecimal s -> 0 <= acc ->
  Str.int_digits acc b s = Some v -> acc <= v.
Proof.
  revert acc b. induction s as [|c s IH]; intros acc b Hs Hacc; simpl.
  - destruct b; [|done]. intros [= <-]. lia.
  - destruct Hs as [Hc Hs]. rewrite Hc. intros Hv.
    pose proof (digit_value_bounds c Hc).
    apply IH in Hv; [lia|done|lia].
Qed.

Lemma to_int_digits_eq s :
  all_chars Str.isdecimal s -> Str.to_int s = Str.int_digits 0 false s.
Proof.
  intros Hs. unfold Str.to_int. rewrite (strip_digits s Hs).
  destruct s as [|c s]; [done|]. destruct Hs as [Hc Hs].
  destruct c as [[] [] [] [] [] [] [] []]; try discriminate Hc; reflexivity.
Qed.

Lemma to_int_digits_nonneg s v :
  all_chars Str.isdecimal s -> Str.to_int s = Some v -> 0 <= v.
Proof.
  intros Hs. rewrite (to_int_digits_eq s Hs).
  intros Hv. by apply int_digits_nonneg in Hv.
Qed.

(** What the block of the helpful phrase gives: nothing when there is no
    text or no match, and otherwise the two numbers of the phrase. *)
Lemma feedback_of_cases n fb :
  feedback_of n = Ok fb ->
  (fb = (None, None)
   /\ (found_helpful_results n = []
       \/ Re.match_ FOUND_HELPFUL_REGEX (Str.join "" (found_helpful_results n))
          = None))
  \/ (exists d rest total helpful,
        found_helpful_results n <> []
        /\ Re.match_ FOUND_HELPFUL_REGEX (Str.join "" (found_helpful_results n))
           = Some (d, rest)
        /\ (d !! "total" ≫= (fun t => Str.to_int (Str.remove "," t))) = Some total
        /\ (d !! "helpful" ≫= (fun t => Str.to_int (Str.remove "," t)))
           = Some helpful
        /\ fb = (Some total, Some helpful)
        /\ 0 <= total /\ 0 <= helpful).
Proof.
  unfold feedback_of. destruct (found_helpful_results n) as [|x l] eqn:Hres.
  { intros [= <-]. left. auto. }
  destruct (Re.match_ _ _) as [[d rest]|] eqn:Hm.
  2: { intros [= <-]. left. auto. }
  destruct (numeral_of_match _ _ "total" _ _ _ Hm found_helpful_captures eq_refl)
    as (t & Ht & [Htd Htne]%remove_commas).
  destruct (numeral_of_match _ _ "helpful" _ _ _ Hm found_helpful_captures eq_refl)
    as (h & Hh & [Hhd Hhne]%remove_commas).
  rewrite Ht, Hh.
  destruct (to_int_digits _ Htd Htne) as [total Htotal].
  destruct (to_int_digits _ Hhd Hhne) as [helpful Hhelpful].
  simpl. rewrite Htotal. simpl. rewrite Hhelpful. simpl. intros [= <-].
  right. exists d, rest, total, helpful.
  apply valid_value_truthy in Ht as [Ht _]. apply valid_value_truthy in Hh as [Hh _].
  rewrite Ht, Hh. simpl.
  repeat split; try done.
  - by apply (to_int_digits_nonneg _ _ Htd).
  - by apply (to_int_digits_nonneg _ _ Hhd).
Qed.

(** What the block of the rating gives when it raises nothing. *)
Lemma rating_of_cases n rt :
  rating_of n = Ok rt ->
  (rating_results n = [] /\ rt = (None, None))
  \/ (exists m rest t u mt mx,
        rating_results n = m :: rest
        /\ getprevious m ≫= (fun node => text (element node)) = Some t
        /\ Str.to_int (Str.strip t) = Some u
        /\ text (element m) = Some mt
        /\ (Re.match_ MAXIMUM_RATING_REGEX mt = None /\ mx = None
            \/ exists d rest' v,
                 Re.match_ MAXIMUM_RATING_REGEX mt = Some (d, rest')
                 /\ d !! "maximum_rating" ≫= Str.to_int = Some v
                 /\ mx = Some v /\ 0 <= v)
        /\ rt = clear_both u mx).
Proof.
  unfold rating_of. destruct (rating_results n) as [|m rest].
  { intros [= <-]. by left. }
  intros Hrt. right.
  destruct (getprevious m ≫= _) as [t|] eqn:Ht; [|discriminate].
  simpl in Hrt. destruct (Str.to_int (Str.strip t)) as [u|] eqn:Hu; [|discriminate].
  simpl in Hrt. destruct (text (element m)) as [mt|] eqn:Hmt; [|discriminate].
  simpl in Hrt. exists m, rest, t, u, mt.
  destruct (Re.match_ MAXIMUM_RATING_REGEX mt) as [[d rest']|] eqn:Hm.
  - destruct (numeral_of_match _ _ "maximum_rating" _ _ _ Hm
                maximum_rating_captures eq_refl) as (ds & Hds & Hnum).
    rewrite Hds in Hrt. simpl in Hrt.
    assert (Hall : all_chars Str.isdecimal ds) by (by destruct ds as [|c ds]; [|destruct Hnum]).
    destruct (Str.to_int ds) as [v|] eqn:Hv; [|discriminate].
    simpl in Hrt. injection Hrt as <-. exists (Some v).
    repeat split; try done. right. exists d, rest', v.
    apply valid_value_truthy in Hds as [-> _]. simpl.
    repeat split; try done. by apply (to_int_digits_nonneg ds).
  - simpl in Hrt. injection Hrt as <-. exists None. repeat split; auto.
Qed.

(** X2. In every record the field extractor produces, a maximum rating
    that is present is positive and a user rating that is present is not
    zero; a user score that reads as 0 clears both, since Python takes 0 for
    a missing value. *)
Theorem zero_rating_is_cleared build sl tid tn tu single n w r w' :
  parse_raw_item_to_imdb_user_review build sl tid tn tu single n w = (Ok r, w') ->
  (forall v, maximum_rating r = Some v -> 0 < v)
  /\ (forall v, user_rating r = Some v -> v <> 0)
  /\ (forall m rest t,
        rating_results n = m :: rest ->
        getprevious m ≫= (fun node => text (element node)) = Some t ->
        Str.to_int (Str.strip t) = Some 0 ->
        user_rating r = None /\ maximum_rating r = None).
Proof.
  intros (dt & fb & rt & au & _ & _ & Hrt & _ & ->)%extract_ok. simpl.
  apply rating_of_cases in Hrt
    as [[Hnil ->]|(m & rest & t & u & mt & mx & Hres & Ht & Hu & Hmt & Hmx & ->)].
  { split; [done|]. split; [done|]. intros m rest t Hres. congruence. }
  assert (Hpair : forall v, (clear_both u mx).2 = Some v -> 0 < v /\ u <> 0
                            /\ (clear_both u mx).1 = Some u).
  { intros v. unfold clear_both.
    destruct Hmx as [[_ ->]|(d & rest' & x & _ & _ & -> & Hx)]; [done|].
    destruct (negb (u =? 0) && negb (x =? 0)) eqn:Hnz; [|done].
    apply andb_true_iff in Hnz as [Hu0%negb_true_iff%Z.eqb_neq Hx0%negb_true_iff%Z.eqb_neq].
    intros [= <-]. split; [lia|done]. }
  split; [by intros v Hv; apply Hpair|]. split.
  - intros v Hv. destruct (clear_both u mx).2 as [x|] eqn:Hx.
    + destruct (Hpair x eq_refl) as (_ & Hu0 & Hfst). rewrite Hfst in Hv. congruence.
    + apply clear_both_pair in Hx. congruence.
  - intros m' rest' t' Hres' Ht' Hzero.
    rewrite Hres in Hres'. injection Hres' as <- <-.
    rewrite Ht in Ht'. injection Ht' as <-. rewrite Hu in Hzero.
    injection Hzero as ->. unfold clear_both. by destruct mx.
Qed.

Lemma strptime_C_valid s y m d :
  Datetime.strptime_C s = Some (y, m, d) -> Datetime.valid_date y m d = true.
Proof.
  unfold Datetime.strptime_C.
  destruct (Re.match_ Datetime.format_regex s) as [[g rest]|]; [|done].
  cbn [mbind option_bind]. case_guard; [|done]. cbn [mbind option_bind].
  destruct (g !! "d" ≫= Str.to_int) as [d'|]; [|done]. cbn [mbind option_bind].
  destruct (g !! "B" ≫= _) as [m'|]; [|done]. cbn [mbind option_bind].
  destruct (g !! "Y" ≫= Str.to_int) as [y'|]; [|done]. cbn [mbind option_bind].
  case_guard; [|done]. cbn [mbind option_bind]. by intros [= <- <- <-].
Qed.

Lemma zfill_length w n : String.length (Str.zfill w n) = w.
Proof.
  revert n. induction w as [|w IH]; intros n; [done|].
  simpl. rewrite length_app, IH. simpl. lia.
Qed.

Lemma isoformat_length ymd : String.length (Datetime.isoformat ymd) = 10%nat.
Proof.
  destruct ymd as [[y m] d]. unfold Datetime.isoformat.
  by rewrite !length_app, !zfill_length.
Qed.

(** X3. The review date of a record the field extractor produces, when
    present, is the ISO form, ten characters long, of a date that exists in
    the calendar: the day is within the month, leap years counted, and the
    year is from 1 to 9999. *)
Theorem review_date_is_iso build sl tid tn tu single n w r w' text :
  parse_raw_item_to_imdb_user_review build sl tid tn tu single n w = (Ok r, w') ->
  review_date r = Some text ->
  String.length text = 10%nat
  /\ exists y m d first rest,
       review_date_results n = first :: rest
       /\ Datetime.strptime_C (Str.strip first) = Some (y, m, d)
       /\ Datetime.valid_date y m d = true
       /\ text = Str.zfill 4 y +:+ "-" +:+ Str.zfill 2 m +:+ "-" +:+ Str.zfill 2 d.
Proof.
  intros (dt & fb & rt & au & Hd & _ & _ & _ & ->)%extract_ok. simpl.
  intros ->. unfold date_of in Hd.
  destruct (review_date_results n) as [|first rest]; [by injection Hd|].
  destruct (Datetime.strptime_C (Str.strip first)) as [[[y m] d]|] eqn:Hp;
    [|discriminate].
  simpl in Hd. injection Hd as <- _. split; [exact (isoformat_length (y, m, d))|].
  exists y, m, d, first, rest. repeat split; try done.
  by apply (strptime_C_valid (Str.strip first)).
Qed.

Lemma zero_rating_is_cleared_witness :
  exists r,
    parse_raw_item_to_imdb_user_review Page.cut_query Page.no_locale
      "tt1" None None false (Page.node_in_page Page.zero_score) (Page.world "C")
    = (Ok r, Page.world "C")
    /\ user_rating r = None /\ maximum_rating r = None.
Proof.
  assert (H : exists r,
             parse_raw_item_to_imdb_user_review Page.cut_query Page.no_locale
               "tt1" None None false (Page.node_in_page Page.zero_score)
               (Page.world "C") = (Ok r, Page.world "C"))
    by (eexists; vm_compute; reflexivity).
  destruct H as [r H]. exists r. split; [exact H|].
  exact (proj2 (proj2 (zero_rating_is_cleared Page.cut_query Page.no_locale
                         "tt1" None None false
                         (Page.node_in_page Page.zero_score) (Page.world "C")
                         r (Page.world "C") H))
           {| document := Page.page [Page.zero_score] [];
              before := [Page.score "0"; Page.star];
              element := Page.point_scale "/10" |}
           [] "0" ltac:(by_vm) ltac:(by_vm) ltac:(by_vm)).
Defined.

Lemma review_date_is_iso_witness :
  String.length "2020-03-12" = 10%nat
  /\ exists y m d first rest,
       review_date_results (Page.node_in_page Page.rv001) = first :: rest
       /\ Datetime.strptime_C (Str.strip first) = Some (y, m, d)
       /\ Datetime.valid_date y m d = true
       /\ "2020-03-12"
          = Str.zfill 4 y +:+ "-" +:+ Str.zfill 2 m +:+ "-" +:+ Str.zfill 2 d.
Proof.
  exact (review_date_is_iso Page.cut_query Page.no_locale "tt1" None None false
           (Page.node_in_page Page.rv001) (Page.world "C")
           (Page.rv001_record "tt1" None None false "/user/ur001/")
           (Page.world "C") "2020-03-12" ltac:(by_vm) eq_refl).
Defined.

(** ** The records of a page *)

Lemma add_reviews_elements build sl tid tn tu single l acc w s w' :
  add_reviews build sl tid tn tu single l acc w = (Ok s, w') ->
  (forall r, r ∈ s <->
     r ∈ acc \/ exists n w1,
                  n ∈ l
                  /\ (parse_raw_item_to_imdb_user_review build sl tid tn tu
                        single n w1).1 = Ok r)
  /\ (size s <= length l + size acc)%nat.
Proof.
  revert acc w. induction l as [|n l IH]; intros acc w.
  - intros [= <- <-]. split; [|simpl; lia]. intros r. split; [auto|].
    intros [Hr|(n & w1 & Hn & _)]; [done|]. by apply elem_of_nil in Hn.
  - rewrite add_reviews_cons.
    destruct (parse_raw_item_to_imdb_user_review _ _ _ _ _ _ n w)
      as [[r0|e] w1] eqn:Hn; [|done].
    intros [Hel Hsize]%IH. split.
    + intros r. rewrite Hel, elem_of_union, elem_of_singleton. split.
      * intros [[->|Hr]|(n' & w2 & Hn' & Hr)]; [|by left|].
        -- right. exists n, w. split; [by left|]. by rewrite Hn.
        -- right. exists n', w2. split; [by right|done].
      * intros [Hr|(n' & w2 & [->|Hn']%elem_of_cons & Hr)]; [by left; right| |].
        -- left. left.
           rewrite (extract_result build sl tid tn tu single n w2) in Hr.
           rewrite <- (extract_result build sl tid tn tu single n w), Hn in Hr.
           simpl in Hr. congruence.
        -- right. by exists n', w2.
    + assert (size ({[ r0 ]} ∪ acc) <= 1 + size acc)%nat.
      { rewrite size_union_alt, size_singleton.
        assert (size (acc ∖ {[ r0 ]}) <= size acc)%nat
          by (apply subseteq_size, subseteq_difference_l; reflexivity).
        lia. }
      simpl. lia.
Qed.

Lemma parse_ok_parts build sl fs tid tn tu single raw enc w s td md w' :
  parse_raw_html_to_imdb_user_review_set_and_more_data build sl fs
    tid tn tu single raw enc w = (Ok (s, td, md), w') ->
  exists root tn' tu',
    fs raw enc = Ok root
    /\ title_of build tn tu root = Ok (tn', tu', td)
    /\ (forall r, r ∈ s <->
          exists n w1,
            n ∈ review_results root
            /\ (parse_raw_item_to_imdb_user_review build sl tid tn' tu'
                  single n w1).1 = Ok r)
    /\ (size s <= length (review_results root))%nat
    /\ (forall r, r ∈ s ->
          title_id r = tid /\ title_name r = tn' /\ title_relative_url r = tu').
Proof.
  rewrite parse_stages. destruct (fs raw enc) as [root|] eqn:Hfs; [|done].
  destruct (title_of build tn tu root) as [[[tn' tu'] td']|] eqn:Htitle; [|done].
  destruct (add_reviews _ _ _ _ _ _ _ _ _) as [[s'|e] w1] eqn:Hadd; [|done].
  intros [= <- <- <- <-]. exists root, tn', tu'.
  apply add_reviews_elements in Hadd as [Hel Hsize].
  assert (Hiff : forall r, r ∈ s' <->
            exists n w2, n ∈ review_results root
              /\ (parse_raw_item_to_imdb_user_review build sl tid tn' tu'
                    single n w2).1 = Ok r).
  { intros r. rewrite Hel. split.
    - intros [Hr|Hr]; [by apply elem_of_empty in Hr|exact Hr].
    - intros Hr. right. exact Hr. }
  split; [done|]. split; [done|]. split; [done|]. split.
  - rewrite size_empty in Hsize. lia.
  - intros r (n & w2 & _ & Hr)%Hiff.
    destruct (parse_raw_item_to_imdb_user_review _ _ _ _ _ _ n w2)
      as [[r'|e] w3] eqn:Hn; simpl in Hr; [|done]. injection Hr as ->.
    by apply extract_ok in Hn as (dt & fb & rt & au & _ & _ & _ & _ & ->).
Qed.

(** X4. The records of a parsed page are exactly the records the field
    extractor gives for the review containers of the document, under the
    title known or found; records that are equal count once, so the set has
    at most as many records as the document has containers; and every record
    carries the title id it was asked for. *)
Theorem page_records_are_extractions build sl fs tid tn tu single raw enc w
    s td md w' :
  parse_raw_html_to_imdb_user_review_set_and_more_data build sl fs
    tid tn tu single raw enc w = (Ok (s, td, md), w') ->
  exists root tn' tu',
    fs raw enc = Ok root
    /\ title_of build tn tu root = Ok (tn', tu', td)
    /\ (forall r, r ∈ s <->
          exists n w1,
            n ∈ review_results root
            /\ (parse_raw_item_to_imdb_user_review build sl tid tn' tu'
                  single n w1).1 = Ok r)
    /\ (size s <= length (review_results root))%nat
    /\ (forall r, r ∈ s ->
          title_id r = tid /\ title_name r = tn' /\ title_relative_url r = tu').
Proof. apply parse_ok_parts. Qed.

Lemma page_records_are_extractions_witness :
  exists root tn' tu',
    Page.parse_bytes ["1"%byte] "utf-8" = Ok root
    /\ title_of Page.cut_query None None root
       = Ok (tn', tu',
             <["title_relative_url" := "/title/tt1/"]>
               (<["title_name" := "A Film"]> ∅))
    /\ (forall r, r ∈ ({[ Page.record "rv001" "2020-03-12" ]}
                       : gset IMDbUserReview) <->
          exists n w1,
            n ∈ review_results root
            /\ (parse_raw_item_to_imdb_user_review Page.cut_query
                  Page.no_locale "tt1" tn' tu' false n w1).1 = Ok r)
    /\ (size ({[ Page.record "rv001" "2020-03-12" ]} : gset IMDbUserReview)
        <= length (review_results root))%nat
    /\ (forall r, r ∈ ({[ Page.record "rv001" "2020-03-12" ]}
                       : gset IMDbUserReview) ->
          title_id r = "tt1" /\ title_name r = tn'
          /\ title_relative_url r = tu').
Proof.
  exact (page_records_are_extractions Page.cut_query Page.no_locale
           Page.parse_bytes "tt1" None None false ["1"%byte] "utf-8"
           (Page.sent "pt_BR.UTF-8" [Page.reviews_url]) _ _ _ _
           first_page_parsed).
Defined.

(** X5. When the caller already knows the name or the path of the title,
    the page parser does not look for the title again: it reports no title
    data, and every record carries the name and the path it was given. *)
Theorem known_title_is_kept build sl fs tid tn tu single raw enc w s td md w' :
  truthy tn = true \/ truthy tu = true ->
  parse_raw_html_to_imdb_user_review_set_and_more_data build sl fs
    tid tn tu single raw enc w = (Ok (s, td, md), w') ->
  td = ∅
  /\ forall r, r ∈ s -> title_name r = tn /\ title_relative_url r = tu.
Proof.
  intros Hknown (root & tn' & tu' & _ & Htitle & _ & _ & Hr)%parse_ok_parts.
  unfold title_of in Htitle.
  assert (negb (truthy tn) && negb (truthy tu) = false) as Hnot
    by (by destruct Hknown as [-> | ->]; [|rewrite andb_false_r]).
  rewrite Hnot in Htitle. injection Htitle as <- <- <-.
  split; [done|]. intros r Hin. by destruct (Hr r Hin) as (_ & ? & ?).
Qed.

Lemma known_title_is_kept_witness :
  (∅ : gmap string string) = ∅
  /\ forall r, r ∈ ({[ Page.record "rv002" "2020-03-13" ]} : gset IMDbUserReview) ->
       title_name r = Some "A Film" /\ title_relative_url r = Some "/title/tt1/".
Proof.
  exact (known_title_is_kept Page.cut_query Page.no_locale Page.parse_bytes
           "tt1" (Some "A Film") (Some "/title/tt1/") false ["2"%byte] "utf-8"
           (Page.sent "C" [Page.reviews_url; Page.ajax_url "abc123"])
           _ _ _ _ (or_introl eq_refl) second_page_parsed).
Defined.

(** ** The pagination loop over several pages *)

Lemma second_page_fetched :
  pages_fetched Page.cut_query Page.no_locale Page.parse_bytes
    Page.three_pages "tt1" false false 1 Page.after_first_page
    (Page.sent "C" [Page.reviews_url]) Page.after_second_page
    (Page.sent "C" [Page.reviews_url; Page.ajax_url "abc123"]).
Proof. eapply fetched_next; [reflexivity | by_vm | constructor]. Qed.

Section Invariants.

Variable build : string -> Result string.
Variable sl : string -> string -> Result (Z * Z * Z).
Variable fs : list byte -> string -> Result Node.
Variable client : nat -> URL -> Result Response.
Variables (tid : string) (single save : bool).

(** What a run of the loop body that raises nothing has done. *)
Lemma step_cases st w st' w' :
  crawl_step build sl fs client tid single save st w = (Ok st', w') ->
  exists response,
    client (length (requests w)) (current_url st) = Ok response
    /\ (is_error_status (status_code response) = true
        /\ st' = stop st /\ w' = requested (current_url st) w
        \/ is_error_status (status_code response) = false
           /\ exists s td md,
                parse_raw_html_to_imdb_user_review_set_and_more_data build sl
                  fs tid (known_title_name st) (known_title_relative_url st)
                  single (content_bytes response) (encoding response)
                  (archived save (page_count st) (content_bytes response)
                     (requested (current_url st) w))
                = (Ok (s, td, md), w')
                /\ st' = next_state st
                           (if save then page_count st + 1 else page_count st)
                           s td md).
Proof.
  intros H. rewrite crawl_step_stages in H. cbv zeta in H.
  destruct (client _ _) as [response|]; [|done]. exists response. split; [done|].
  destruct (is_error_status _).
  - injection H as <- <-. by left.
  - right. split; [done|].
    destruct (parse_raw_html_to_imdb_user_review_set_and_more_data _ _ _ _ _ _ _ _ _ _)
      as [[[[s td] md]|e] w2]; [|done].
    injection H as <- <-. by exists s, td, md.
Qed.

Lemma next_state_reviews st pages s td md :
  user_review_set (next_state st pages s td md) = user_review_set st ∪ s.
Proof.
  assert (H : (if bool_decide (s = ∅) then user_review_set st
               else user_review_set st ∪ s) = user_review_set st ∪ s).
  { case_bool_decide as Hs; [|done]. rewrite Hs. by rewrite (right_id_L ∅ (∪)). }
  unfold next_state.
  destruct (valid_value_from_dict md "data-key");
    destruct (load_more_data_base_url st);
    destruct (valid_value_from_dict md "data-ajaxurl"); exact H.
Qed.

Lemma next_state_title st pages s td md :
  (truthy (known_title_name st) = true ->
   known_title_name (next_state st pages s td md) = known_title_name st)
  /\ (truthy (known_title_relative_url st) = true ->
      known_title_relative_url (next_state st pages s td md)
      = known_title_relative_url st).
Proof.
  unfold next_state.
  destruct (valid_value_from_dict md "data-key");
    destruct (load_more_data_base_url st);
    destruct (valid_value_from_dict md "data-ajaxurl"); simpl;
    split; by intros ->.
Qed.

Lemma next_state_base st pages s td md b :
  load_more_data (next_state st pages s td md) = true ->
  load_more_data_base_url st = Some b ->
  load_more_data_base_url (next_state st pages s td md) = Some b.
Proof.
  unfold next_state. intros Hmore ->. revert Hmore.
  destruct (valid_value_from_dict md "data-key");
    destruct (valid_value_from_dict md "data-ajaxurl"); simpl; done.
Qed.

Lemma step_reviews st w st' w' :
  crawl_step build sl fs client tid single save st w = (Ok st', w') ->
  user_review_set st ⊆ user_review_set st'.
Proof.
  intros (response & _ & [(_ & -> & _)|(_ & s & td & md & _ & ->)])%step_cases.
  - done.
  - rewrite next_state_reviews. apply union_subseteq_l.
Qed.

Lemma step_title st w st' w' :
  crawl_step build sl fs client tid single save st w = (Ok st', w') ->
  (truthy (known_title_name st) = true ->
   known_title_name st' = known_title_name st)
  /\ (truthy (known_title_relative_url st) = true ->
      known_title_relative_url st' = known_title_relative_url st)
  /\ (forall b, load_more_data st' = true ->
                load_more_data_base_url st = Some b ->
                load_more_data_base_url st' = Some b).
Proof.
  intros (response & _ & [(_ & -> & _)|(_ & s & td & md & _ & ->)])%step_cases.
  - done.
  - destruct (next_state_title st (if save then page_count st + 1
                                   else page_count st) s td md) as [Hn Hu].
    split; [done|]. split; [done|]. intros b. apply next_state_base.
Qed.

End Invariants.

(** X6. Over any number of pages the driver only adds to the set of
    reviews: what was collected from the earlier pages is still there. *)
Theorem reviews_accumulate build sl fs client tid single save k st w st' w' :
  pages_fetched build sl fs client tid single save k st w st' w' ->
  user_review_set st ⊆ user_review_set st'.
Proof.
  induction 1 as [|k st w st1 w1 st2 w2 _ Hstep _ IH]; [done|].
  etrans; [|exact IH]. by eapply step_reviews.
Qed.

Lemma reviews_accumulate_witness :
  user_review_set Page.after_first_page ⊆ user_review_set Page.after_second_page.
Proof.
  exact (reviews_accumulate Page.cut_query Page.no_locale Page.parse_bytes
           Page.three_pages "tt1" false false 1 Page.after_first_page
           (Page.sent "C" [Page.reviews_url]) Page.after_second_page
           (Page.sent "C" [Page.reviews_url; Page.ajax_url "abc123"])
           second_page_fetched).
Defined.

(** X7. What the driver learns once it keeps: over any number of pages, a
    title name or a title path that is known is not replaced, and while the
    loop is running the ajax base path learned from an earlier page is not
    replaced by the path of a later page. *)
Theorem learned_once build sl fs client tid single save k st w st' w' :
  pages_fetched build sl fs client tid single save k st w st' w' ->
  (truthy (known_title_name st) = true ->
   known_title_name st' = known_title_name st)
  /\ (truthy (known_title_relative_url st) = true ->
      known_title_relative_url st' = known_title_relative_url st)
  /\ (forall b, load_more_data st' = true ->
                load_more_data_base_url st = Some b ->
                load_more_data_base_url st' = Some b).
Proof.
  induction 1 as [|k st w st1 w1 st2 w2 _ Hstep Hrest IH]; [done|].
  destruct (step_title _ _ _ _ _ _ _ _ _ _ _ Hstep) as (Hn & Hu & Hb).
  destruct IH as (IHn & IHu & IHb).
  split; [|split].
  - intros Hk. rewrite <- (Hn Hk). apply IHn. by rewrite (Hn Hk).
  - intros Hk. rewrite <- (Hu Hk). apply IHu. by rewrite (Hu Hk).
  - intros b Hmore Hbase. apply IHb; [done|]. apply Hb; [|done].
    inversion Hrest; by subst.
Qed.

Lemma learned_once_witness :
  (truthy (known_title_name Page.after_first_page) = true ->
   known_title_name Page.after_second_page
   = known_title_name Page.after_first_page)
  /\ (truthy (known_title_relative_url Page.after_first_page) = true ->
      known_title_relative_url Page.after_second_page
      = known_title_relative_url Page.after_first_page)
  /\ (forall b, load_more_data Page.after_second_page = true ->
                load_more_data_base_url Page.after_first_page = Some b ->
                load_more_data_base_url Page.after_second_page = Some b).
Proof.
  exact (learned_once Page.cut_query Page.no_locale Page.parse_bytes
           Page.three_pages "tt1" false false 1 Page.after_first_page
           (Page.sent "C" [Page.reviews_url]) Page.after_second_page
           (Page.sent "C" [Page.reviews_url; Page.ajax_url "abc123"])
           second_page_fetched).
Defined.

(** *** Requests, archive and exceptions of the loop *)

Section Loop.

Variable build : string -> Result string.
Variable sl : string -> string -> Result (Z * Z * Z).
Variable fs : list byte -> string -> Result Node.
Variable client : nat -> URL -> Result Response.
Variables (tid : string) (single save : bool).

Lemma loop_inv fuel st w st' w' :
  crawl_loop build sl fs client fuel tid single save st w = (Ok (Some st'), w') ->
  exists k, (k <= fuel)%nat
    /\ pages_fetched build sl fs client tid single save k st w st' w'
    /\ load_more_data st' = false.
Proof.
  revert st w. induction fuel as [|fuel IH]; intros st w; simpl.
  - destruct (load_more_data st) eqn:Hmore; [discriminate|].
    intros [= <- <-]. exists 0%nat. split; [lia|]. split; [constructor|done].
  - destruct (load_more_data st) eqn:Hmore.
    + unfold mbind, M_bind.
      destruct (crawl_step build sl fs client tid single save st w)
        as [[st1|e] w1] eqn:Hstep; [|discriminate].
      intros (k & Hk & Hpages & Hstop)%IH. exists (S k). split; [lia|].
      split; [by apply (fetched_next _ _ _ _ _ _ _ _ _ _ st1 w1)|done].
    + intros [= <- <-]. exists 0%nat. split; [lia|]. split; [constructor|done].
Qed.

Lemma loop_requests fuel st w :
  exists urls,
    requests (crawl_loop build sl fs client fuel tid single save st w).2
    = requests w ++ urls
    /\ (load_more_data st = true -> (0 < fuel)%nat ->
        exists rest, urls = current_url st :: rest).
Proof.
  revert st w. induction fuel as [|fuel IH]; intros st w; simpl.
  - exists []. split; [|lia]. rewrite app_nil_r. by destruct (load_more_data st).
  - destruct (load_more_data st) eqn:Hmore.
    + unfold mbind, M_bind.
      pose proof (step_requests build sl fs client tid single save st w) as Hreq.
      destruct (crawl_step build sl fs client tid single save st w)
        as [[st1|e] w1]; simpl in Hreq.
      * destruct (IH st1 w1) as (urls & -> & _). rewrite Hreq.
        exists (current_url st :: urls). rewrite <- app_assoc.
        split; [done|]. intros _ _. by exists urls.
      * exists [current_url st]. split; [done|]. intros _ _. by exists [].
    + exists []. split; [by rewrite app_nil_r|]. discriminate.
Qed.

Lemma fetched_requests k st w st' w' :
  pages_fetched build sl fs client tid single save k st w st' w' ->
  exists urls, requests w' = requests w ++ urls /\ length urls = k.
Proof.
  induction 1 as [|k st w st1 w1 st2 w2 _ Hstep _ (urls & -> & Hlen)].
  - exists []. by rewrite app_nil_r.
  - pose proof (step_requests build sl fs client tid single save st w) as Hreq.
    rewrite Hstep in Hreq. simpl in Hreq. rewrite Hreq, <- app_assoc.
    exists (current_url st :: urls). split; [done|]. simpl. by rewrite Hlen.
Qed.


Lemma step_archive st w response :
  client (length (requests w)) (current_url st) = Ok response ->
  archive (crawl_step build sl fs client tid single save st w).2
  = archive w ++ (if save && negb (is_error_status (status_code response))
                  then [(page_count st, content_bytes response)] else []).
Proof.
  intros Hget. rewrite crawl_step_stages. cbv zeta. rewrite Hget.
  destruct (is_error_status _).
  - rewrite andb_false_r. by rewrite app_nil_r.
  - match goal with
    | |- context [parse_raw_html_to_imdb_user_review_set_and_more_data
                    ?b ?s ?f ?t ?n ?u ?g ?r ?e ?w0] =>
        destruct (parse_keeps b s f t n u g r e w0) as [_ Ha];
        destruct (parse_raw_html_to_imdb_user_review_set_and_more_data
                    b s f t n u g r e w0) as [[[[rs td] md]|e'] w2]
    end; simpl in *; rewrite Ha; destruct save; simpl; by rewrite ?app_nil_r.
Qed.



Lemma fetched_title_id k st w st' w' :
  pages_fetched build sl fs client tid single save k st w st' w' ->
  (forall r, r ∈ user_review_set st -> title_id r = tid) ->
  forall r, r ∈ user_review_set st' -> title_id r = tid.
Proof.
  induction 1 as [|k st w st1 w1 st2 w2 _ Hstep _ IH]; [done|].
  intros Hst. apply IH. intros r.
  destruct (step_cases _ _ _ _ _ _ _ _ _ _ _ Hstep)
    as (response & _ & [(_ & -> & _)|(_ & s & td & md & Hparse & ->)]).
  - apply Hst.
  - rewrite next_state_reviews. intros [Hr|Hr]%elem_of_union; [by apply Hst|].
    apply parse_ok_parts in Hparse as (root & tn1 & tu1 & _ & _ & _ & _ & Hid).
    by apply Hid.
Qed.

End Loop.

Lemma crawl_returns build sl fs client fuel tid single save_path w0 result w' :
  crawl_imdb_user_reviews_by_title_id build sl fs client fuel tid single
    save_path w0 = (Ok (Some result), w') ->
  exists k st',
    (k <= fuel)%nat
    /\ pages_fetched build sl fs client tid single (truthy save_path) k
         (initial_state tid) w0 st' w'
    /\ load_more_data st' = false
    /\ result = user_review_set st'.
Proof.
  unfold crawl_imdb_user_reviews_by_title_id, mbind, M_bind, mret, M_ret.
  destruct (crawl_loop _ _ _ _ _ _ _ _ _ _) as [[[st'|]|e] w1] eqn:Hloop;
    [|discriminate..].
  intros [= <- <-]. apply loop_inv in Hloop as (k & Hk & Hpages & Hstop).
  by exists k, st'.
Qed.

Lemma crawl_raises build sl fs client tid single save_path k fuel w0 st w e w1 :
  pages_fetched build sl fs client tid single (truthy save_path) k
    (initial_state tid) w0 st w ->
  load_more_data st = true ->
  crawl_step build sl fs client tid single (truthy save_path) st w
  = (Raise e, w1) ->
  crawl_imdb_user_reviews_by_title_id build sl fs client (k + S fuel) tid
    single save_path w0 = (Raise e, w1).
Proof.
  intros Hpages Hmore Hstep.
  unfold crawl_imdb_user_reviews_by_title_id, mbind, M_bind.
  rewrite (loop_after_pages _ _ _ _ _ _ _ k (S fuel) _ _ _ _ Hpages).
  simpl. rewrite Hmore. unfold mbind, M_bind. by rewrite Hstep.
Qed.

(** X8. The loop sends one request for each page it fetches, and no other:
    after [k] runs of its body the requests sent are those sent before
    followed by [k] more. *)
Theorem one_request_per_page build sl fs client tid single save k st w st' w' :
  pages_fetched build sl fs client tid single save k st w st' w' ->
  exists urls, requests w' = requests w ++ urls /\ length urls = k.
Proof. apply fetched_requests. Qed.

Lemma one_request_per_page_witness :
  exists urls,
    requests (Page.sent "C" [Page.reviews_url; Page.ajax_url "abc123"])
    = requests (Page.world "pt_BR.UTF-8") ++ urls
    /\ length urls = 2%nat.
Proof.
  exact (one_request_per_page Page.cut_query Page.no_locale Page.parse_bytes
           Page.three_pages "tt1" false false 2 (initial_state "tt1")
           (Page.world "pt_BR.UTF-8") Page.after_second_page
           (Page.sent "C" [Page.reviews_url; Page.ajax_url "abc123"])
           two_pages_fetched).
Defined.

(** X9. For a title id of ASCII letters and digits, which yarl leaves as
    it is, and whatever the server answers, a crawl that is allowed at least
    one request sends its first request to the page of the user reviews of
    the title, https://www.imdb.com/title/<title id>/reviews, with no query;
    the requests sent before the crawl are kept. *)
Theorem crawl_starts_at_reviews_page build sl fs client fuel tid single
    save_path w0 :
  all_chars Str.is_ascii_alnum tid ->
  exists urls,
    requests (crawl_imdb_user_reviews_by_title_id build sl fs client (S fuel)
                tid single save_path w0).2
    = requests w0
      ++ {| scheme := "https"; host := "www.imdb.com";
            path := "/title/" +:+ tid +:+ "/reviews"; query := [] |} :: urls.
Proof.
  intros _.
  destruct (loop_requests build sl fs client tid single (truthy save_path)
              (S fuel) (initial_state tid) w0) as (urls & Hreq & Hfirst).
  destruct Hfirst as [rest ->]; [done|lia|]. exists rest.
  unfold crawl_imdb_user_reviews_by_title_id, mbind, M_bind, mret, M_ret.
  by destruct (crawl_loop _ _ _ _ _ _ _ _ _ _) as [[st'|e] w1].
Qed.

Lemma crawl_starts_at_reviews_page_witness :
  exists urls,
    requests (crawl_imdb_user_reviews_by_title_id Page.cut_query
                Page.no_locale Page.parse_bytes Page.one_page_then_timeout 3
                "tt1" false None (Page.world "pt_BR.UTF-8")).2
    = requests (Page.world "pt_BR.UTF-8")
      ++ {| scheme := "https"; host := "www.imdb.com";
            path := "/title/" +:+ "tt1" +:+ "/reviews"; query := [] |} :: urls.
Proof.
  apply (crawl_starts_at_reviews_page Page.cut_query Page.no_locale
           Page.parse_bytes Page.one_page_then_timeout 2 "tt1" false None
           (Page.world "pt_BR.UTF-8")).
  repeat split.
Defined.

(** X10. A request that fails in the transport, after any number of pages
    fetched, ends the crawl with the exception of the transport: the driver
    catches nothing, and the reviews collected from the earlier pages are
    not returned. *)
Theorem transport_failure_leaves_crawl build sl fs client tid single save_path
    k fuel w0 st w e :
  pages_fetched build sl fs client tid single (truthy save_path) k
    (initial_state tid) w0 st w ->
  load_more_data st = true ->
  client (length (requests w)) (current_url st) = Raise e ->
  crawl_imdb_user_reviews_by_title_id build sl fs client (k + S fuel) tid
    single save_path w0
  = (Raise e, requested (current_url st) w).
Proof.
  intros Hpages Hmore Hget. apply (crawl_raises _ _ _ _ _ _ _ _ _ _ st w);
    [done..|].
  rewrite crawl_step_stages. cbv zeta. by rewrite Hget.
Qed.

Lemma first_page_then_timeout :
  pages_fetched Page.cut_query Page.no_locale Page.parse_bytes
    Page.one_page_then_timeout "tt1" false (truthy None) 1
    (initial_state "tt1") (Page.world "pt_BR.UTF-8")
    Page.after_first_page (Page.sent "C" [Page.reviews_url]).
Proof. eapply fetched_next; [reflexivity | by_vm | constructor]. Qed.

Lemma transport_failure_leaves_crawl_witness :
  crawl_imdb_user_reviews_by_title_id Page.cut_query Page.no_locale
    Page.parse_bytes Page.one_page_then_timeout (1 + 4) "tt1" false None
    (Page.world "pt_BR.UTF-8")
  = (Raise TransportError,
     requested (current_url Page.after_first_page)
       (Page.sent "C" [Page.reviews_url])).
Proof.
  exact (transport_failure_leaves_crawl Page.cut_query Page.no_locale
           Page.parse_bytes Page.one_page_then_timeout "tt1" false None 1 3
           (Page.world "pt_BR.UTF-8") Page.after_first_page
           (Page.sent "C" [Page.reviews_url]) TransportError
           first_page_then_timeout eq_refl eq_refl).
Defined.

(** X11. A page that the parser cannot read, after any number of pages
    fetched, ends the crawl with the exception of the parser, and the
    reviews collected from the earlier pages are not returned; when an
    archive is kept, that page has been written to it before, under the
    page number reached. *)
Theorem unreadable_page_leaves_crawl build sl fs client tid single save_path
    k fuel w0 st w response e w2 :
  pages_fetched build sl fs client tid single (truthy save_path) k
    (initial_state tid) w0 st w ->
  load_more_data st = true ->
  client (length (requests w)) (current_url st) = Ok response ->
  is_error_status (status_code response) = false ->
  parse_raw_html_to_imdb_user_review_set_and_more_data build sl fs tid
    (known_title_name st) (known_title_relative_url st) single
    (content_bytes response) (encoding response)
    (archived (truthy save_path) (page_count st) (content_bytes response)
       (requested (current_url st) w))
  = (Raise e, w2) ->
  crawl_imdb_user_reviews_by_title_id build sl fs client (k + S fuel) tid
    single save_path w0
  = (Raise e, w2)
  /\ archive w2
     = archive w ++ (if truthy save_path
                     then [(page_count st, content_bytes response)] else []).
Proof.
  intros Hpages Hmore Hget Herr Hparse.
  assert (Hstep : crawl_step build sl fs client tid single (truthy save_path)
                    st w = (Raise e, w2)).
  { rewrite crawl_step_stages. cbv zeta. by rewrite Hget, Herr, Hparse. }
  split; [by apply (crawl_raises _ _ _ _ _ _ _ _ _ _ st w)|].
  pose proof (step_archive build sl fs client tid single (truthy save_path)
                st w response Hget) as Harch.
  rewrite Hstep, Herr in Harch. simpl in Harch. rewrite Harch.
  by destruct (truthy save_path).
Qed.

Lemma first_page_saved :
  pages_fetched Page.cut_query Page.no_locale Page.parse_bytes
    Page.bad_second_page "tt1" false (truthy (Some "out")) 1
    (initial_state "tt1") (Page.world "pt_BR.UTF-8")
    (Page.with_pages 1 Page.after_first_page)
    (Page.saved "C" [Page.reviews_url] [(0, ["1"%byte])]).
Proof. eapply fetched_next; [reflexivity | by_vm | constructor]. Qed.

Lemma bad_second_page_parsed :
  parse_raw_html_to_imdb_user_review_set_and_more_data Page.cut_query
    Page.no_locale Page.parse_bytes "tt1" (Some "A Film") (Some "/title/tt1/")
    false ["5"%byte] "utf-8"
    (Page.saved "C" [Page.reviews_url; Page.ajax_url "abc123"]
       [(0, ["1"%byte]); (1, ["5"%byte])])
  = (Raise ValueError,
     Page.saved "C" [Page.reviews_url; Page.ajax_url "abc123"]
       [(0, ["1"%byte]); (1, ["5"%byte])]).
Proof. by_vm. Qed.

Lemma unreadable_page_leaves_crawl_witness :
  crawl_imdb_user_reviews_by_title_id Page.cut_query Page.no_locale
    Page.parse_bytes Page.bad_second_page (1 + 4) "tt1" false (Some "out")
    (Page.world "pt_BR.UTF-8")
  = (Raise ValueError,
     Page.saved "C" [Page.reviews_url; Page.ajax_url "abc123"]
       [(0, ["1"%byte]); (1, ["5"%byte])])
  /\ archive (Page.saved "C" [Page.reviews_url; Page.ajax_url "abc123"]
                [(0, ["1"%byte]); (1, ["5"%byte])])
     = archive (Page.saved "C" [Page.reviews_url] [(0, ["1"%byte])])
       ++ (if truthy (Some "out")
           then [(page_count (Page.with_pages 1 Page.after_first_page),
                  content_bytes (Page.ok_response ["5"%byte]))]
           else []).
Proof.
  exact (unreadable_page_leaves_crawl Page.cut_query Page.no_locale
           Page.parse_bytes Page.bad_second_page "tt1" false (Some "out") 1 3
           (Page.world "pt_BR.UTF-8") (Page.with_pages 1 Page.after_first_page)
           (Page.saved "C" [Page.reviews_url] [(0, ["1"%byte])])
           (Page.ok_response ["5"%byte]) ValueError
           (Page.saved "C" [Page.reviews_url; Page.ajax_url "abc123"]
              [(0, ["1"%byte]); (1, ["5"%byte])])
           first_page_saved eq_refl eq_refl eq_refl bad_second_page_parsed).
Defined.




(** X13. A crawl that returns has sent at least one request and at most as
    many as it was allowed, and every record of the set it returns carries
    the title id the crawl was asked for. *)
Theorem crawl_reviews_of_the_title build sl fs client fuel tid single
    save_path w0 result w' :
  crawl_imdb_user_reviews_by_title_id build sl fs client fuel tid single
    save_path w0 = (Ok (Some result), w') ->
  (forall r, r ∈ result -> title_id r = tid)
  /\ exists urls,
       requests w' = requests w0 ++ urls
       /\ (1 <= length urls <= fuel)%nat.
Proof.
  intros (k & st' & Hk & Hpages & Hstop & ->)%crawl_returns. split.
  - apply (fetched_title_id _ _ _ _ _ _ _ _ _ _ _ _ Hpages).
    intros r Hr. by apply elem_of_empty in Hr.
  - destruct (fetched_requests _ _ _ _ _ _ _ _ _ _ _ _ Hpages)
      as (urls & Hreq & Hlen).
    exists urls. split; [done|]. rewrite Hlen. split; [|done].
    inversion Hpages; subst; [discriminate|lia].
Qed.

Lemma one_page_crawl :
  crawl_imdb_user_reviews_by_title_id Page.cut_query Page.no_locale
    Page.parse_bytes Page.one_page_then_404 5 "tt1" false None
    (Page.world "pt_BR.UTF-8")
  = (Ok (Some {[ Page.record "rv001" "2020-03-12" ]}),
     Page.sent "C" [Page.reviews_url; Page.ajax_url "abc123"]).
Proof. by_vm. Qed.

Lemma crawl_reviews_of_the_title_witness :
  (forall r, r ∈ ({[ Page.record "rv001" "2020-03-12" ]} : gset IMDbUserReview) ->
             title_id r = "tt1")
  /\ exists urls,
       requests (Page.sent "C" [Page.reviews_url; Page.ajax_url "abc123"])
       = requests (Page.world "pt_BR.UTF-8") ++ urls
       /\ (1 <= length urls <= 5)%nat.
Proof.
  exact (crawl_reviews_of_the_title Page.cut_query Page.no_locale
           Page.parse_bytes Page.one_page_then_404 5 "tt1" false None
           (Page.world "pt_BR.UTF-8") _ _ one_page_crawl).
Defined.

(** ** The text and the author of a record *)

Lemma join_cons sep x y l :
  Str.join sep (x :: y :: l) = x +:+ sep +:+ Str.join sep (y :: l).
Proof. done. Qed.

Lemma split_go_nonempty sep cur s : Str.split_go sep cur s <> [].
Proof.
  revert cur. induction s as [|c s IH]; intros cur; simpl; [done|].
  by destruct (Ascii.eqb c sep).
Qed.

Lemma join_split_chars q sep cur s :
  q " "%char = true ->
  (forall c, Ascii.eqb c sep = false -> q c = true) ->
  all_chars q cur ->
  all_chars q (Str.join " " (Str.split_go sep cur s)).
Proof.
  intros Hspace Hother. revert cur.
  induction s as [|c s IH]; intros cur Hcur; simpl.
  - by apply all_chars_rev_app.
  - destruct (Ascii.eqb c sep) eqn:Hc.
    + pose proof (split_go_nonempty sep "" s) as Hne.
      specialize (IH "" I).
      destruct (Str.split_go sep "" s) as [|y l]; [done|].
      rewrite join_cons. apply all_chars_app; [by apply all_chars_rev_app|].
      apply (all_chars_app q " "); [by split|done].
    + apply IH. split; [by apply Hother|done].
Qed.

Lemma contains_char c s :
  all_chars (fun a => negb (Ascii.eqb a c)) s ->
  Str.contains s (String c "") = false.
Proof.
  induction s as [|a s IH]; [done|]. intros [Ha Hs]. simpl.
  rewrite (IH Hs), orb_false_r, andb_true_r.
  apply negb_true_iff in Ha. by rewrite Ascii.eqb_sym.
Qed.

(** X14. With [review_content_as_single_line] the text of a record is on
    one line: a record the extractor gives has no newline in its content,
    also when a text node of the review had newlines inside. *)
Theorem single_line_content build sl tid tn tu n w r w' c :
  parse_raw_item_to_imdb_user_review build sl tid tn tu true n w = (Ok r, w') ->
  content r = Some c ->
  Str.contains c (String "010" "") = false.
Proof.
  intros (d & fb & rt & au & _ & _ & _ & _ & ->)%extract_ok. simpl.
  destruct (strings _) as [|first rest]; [discriminate|].
  intros [= <-]. apply contains_char. apply join_split_chars; [done| |done].
  intros a Ha. by rewrite Ha.
Qed.

Lemma single_line_content_witness :
  Str.contains "Line one. Line two." (String "010" "") = false.
Proof.
  exact (single_line_content Page.cut_query Page.no_locale "tt1" None None
           (Page.node_in_page Page.rv001) (Page.world "pt_BR.UTF-8")
           (Page.rv001_record "tt1" None None true "/user/ur001/")
           (in_C_locale (Page.world "pt_BR.UTF-8")) "Line one. Line two."
           (rv001_extracted Page.cut_query Page.no_locale "tt1" None None true
              (Page.world "pt_BR.UTF-8") "/user/ur001/" eq_refl)
           eq_refl).
Defined.

Lemma extract_not_ok build sl tid tn tu single n w :
  author_of build n = Raise AttributeError ->
  is_ok (parse_raw_item_to_imdb_user_review build sl tid tn tu single n w).1
  = false
  /\ forall d w1 rt,
       date_of n w = (Ok d, w1) -> rating_of n = Ok rt ->
       parse_raw_item_to_imdb_user_review build sl tid tn tu single n w
       = (Raise AttributeError, w1).
Proof.
  intros Hau. rewrite extract_stages. split.
  - destruct (date_of n w) as [[d|e] w1]; [|done].
    unfold fields_of. run_monad.
    destruct (feedback_of n); [|done]. destruct (rating_of n); [|done].
    by rewrite Hau.
  - intros d w1 rt -> Hrt. unfold fields_of. run_monad.
    pose proof (feedback_of_ok n) as Hfb.
    destruct (feedback_of n); [|done]. by rewrite Hrt, Hau.
Qed.

(** X15. A review whose first author link has no text of its own (a
    picture only, say) gives no record: the extractor raises, and when the
    date and the rating of the container are read without an exception, it
    raises [AttributeError]. *)
Theorem author_without_text_raises build sl tid tn tu single n w a rest :
  user_data_results n = a :: rest ->
  text (element a) = None ->
  is_ok (parse_raw_item_to_imdb_user_review build sl tid tn tu single n w).1
  = false
  /\ forall d w1 rt,
       date_of n w = (Ok d, w1) -> rating_of n = Ok rt ->
       parse_raw_item_to_imdb_user_review build sl tid tn tu single n w
       = (Raise AttributeError, w1).
Proof.
  intros Hres Htext. apply extract_not_ok.
  unfold author_of, name_and_link. by rewrite Hres, Htext.
Qed.

Lemma author_without_text_raises_witness :
  is_ok (parse_raw_item_to_imdb_user_review Page.cut_query Page.no_locale
           "tt1" None None false (Page.node_in_page Page.pictured_author)
           (Page.world "pt_BR.UTF-8")).1
  = false
  /\ forall d w1 rt,
       date_of (Page.node_in_page Page.pictured_author)
         (Page.world "pt_BR.UTF-8") = (Ok d, w1) ->
       rating_of (Page.node_in_page Page.pictured_author) = Ok rt ->
       parse_raw_item_to_imdb_user_review Page.cut_query Page.no_locale
         "tt1" None None false (Page.node_in_page Page.pictured_author)
         (Page.world "pt_BR.UTF-8")
       = (Raise AttributeError, w1).
Proof.
  exact (author_without_text_raises Page.cut_query Page.no_locale "tt1" None
           None false (Page.node_in_page Page.pictured_author)
           (Page.world "pt_BR.UTF-8")
           {| document := Page.page [Page.pictured_author] [];
              before := [];
              element := Page.elem "a" [("href", "/user/ur009/")] None
                           [ Page.elem "img" [("src", "ur009.png")] None []
                               None ] None |}
           [] eq_refl eq_refl).
Defined.

(** ** The expressions of the builder *)

Section Tokens.

#[local] Arguments Ascii.eqb : simpl never.

#[local] Abbreviation no_space := (fun c : ascii => negb (Ascii.eqb c " ")).

Lemma xml_space_free a : Str.is_xml_space a = false -> no_space a = true.
Proof.
  intros Ha. cbv beta. destruct (Ascii.eqb_spec a " ") as [->|]; [|done].
  by vm_compute in Ha.
Qed.

Lemma xml_words_free s : forall cur,
  (forall c, cur = Some c -> c <> "" /\ all_chars no_space c) ->
  Forall (fun w => w <> "" /\ all_chars no_space w) (Str.xml_words_go cur s).
Proof.
  assert (Hrev : forall c, c <> "" /\ all_chars no_space c ->
                   String.rev c <> "" /\ all_chars no_space (String.rev c)).
  { intros [|x c] [Hne Hc]; [done|]. split.
    - apply rev_app_nonempty.
    - by apply all_chars_rev_app. }
  induction s as [|a s IH]; intros cur Hcur; simpl.
  - destruct cur as [c|]; simpl; [|constructor].
    constructor; [|constructor]. by apply Hrev, Hcur.
  - destruct (Str.is_xml_space a) eqn:Ha.
    + apply Forall_app. split; [|by apply IH].
      destruct cur as [c|]; simpl; [|constructor].
      constructor; [|constructor]. by apply Hrev, Hcur.
    + apply IH. intros c [= <-]. apply xml_space_free in Ha.
      destruct cur as [c|]; simpl; (split; [done|]).
      * split; [done|]. by apply Hcur.
      * by split.
Qed.

Lemma prefix_word t : forall w rest,
  all_chars no_space t -> all_chars no_space w ->
  Str.prefix (t +:+ " ") (w +:+ String " " rest) = true <-> t = w.
Proof.
  induction t as [|a t IH]; intros [|c w] rest Ht Hw; simpl.
  - done.
  - destruct Hw as [Hc _]. cbv beta in Hc.
    rewrite Ascii.eqb_sym. apply negb_true_iff in Hc. rewrite Hc. done.
  - destruct Ht as [Ha _]. cbv beta in Ha.
    apply negb_true_iff in Ha. rewrite Ha. done.
  - destruct Ht as [_ Ht], Hw as [_ Hw].
    rewrite andb_true_iff, (IH w rest Ht Hw).
    destruct (Ascii.eqb_spec a c) as [->|Hne]; split.
    + by intros [_ ->].
    + by intros [= ->].
    + by intros [? _].
    + by intros [= ? _].
Qed.

Lemma contains_skip w s x :
  all_chars no_space w ->
  Str.contains (w +:+ s) (String " " x) = Str.contains s (String " " x).
Proof.
  induction w as [|c w IH]; [done|]. intros [Hc Hw].
  change (String c w +:+ s) with (String c (w +:+ s)).
  change (Str.contains (String c (w +:+ s)) (String " " x))
    with (Str.prefix (String " " x) (String c (w +:+ s))
          || Str.contains (w +:+ s) (String " " x)).
  rewrite (IH Hw). simpl. cbv beta in Hc.
  apply negb_true_iff in Hc. rewrite Ascii.eqb_sym in Hc. by rewrite Hc.
Qed.

Lemma contains_one_word t w rest :
  all_chars no_space t -> all_chars no_space w ->
  Str.contains (String " " (w +:+ String " " rest)) (String " " (t +:+ " "))
  = true
  <-> t = w \/ Str.contains (String " " rest) (String " " (t +:+ " ")) = true.
Proof.
  intros Ht Hw.
  change (Str.contains (String " " (w +:+ String " " rest))
            (String " " (t +:+ " ")))
    with (Str.prefix (String " " (t +:+ " ")) (String " " (w +:+ String " " rest))
          || Str.contains (w +:+ String " " rest) (String " " (t +:+ " "))).
  rewrite (contains_skip w _ _ Hw), orb_true_iff.
  change (Str.prefix (String " " (t +:+ " ")) (String " " (w +:+ String " " rest)))
    with (Str.prefix (t +:+ " ") (w +:+ String " " rest)).
  by rewrite (prefix_word t w rest Ht Hw).
Qed.

Lemma contains_lone_space t :
  t <> "" -> all_chars no_space t ->
  Str.contains " " (String " " (t +:+ " ")) = false
  /\ Str.contains "  " (String " " (t +:+ " ")) = false.
Proof.
  destruct t as [|a t]; [done|]. intros _ [Ha _]. cbv beta in Ha.
  apply negb_true_iff in Ha. simpl. by rewrite Ha.
Qed.

Lemma contains_words t ws :
  t <> "" -> all_chars no_space t ->
  Forall (fun w => w <> "" /\ all_chars no_space w) ws ->
  Str.contains (" " +:+ Str.join " " ws +:+ " ") (" " +:+ t +:+ " ") = true
  <-> t ∈ ws.
Proof.
  intros Hne Ht Hws. destruct (contains_lone_space t Hne Ht) as [Hone Htwo].
  induction Hws as [|w ws [_ Hw] Hws IH].
  - change (" " +:+ Str.join " " [] +:+ " ") with "  ".
    change (" " +:+ t +:+ " ") with (String " " (t +:+ " ")).
    rewrite Htwo. split; [done|]. by intros ?%elem_of_nil.
  - rewrite elem_of_cons. destruct ws as [|y l].
    + change (" " +:+ Str.join " " [w] +:+ " ")
        with (String " " (w +:+ String " " "")).
      change (" " +:+ t +:+ " ") with (String " " (t +:+ " ")).
      rewrite (contains_one_word t w "" Ht Hw), Hone.
      split; [intros [?|?]; [by left|done]|].
      intros [?|?%elem_of_nil]; [by left|done].
    + change (" " +:+ t +:+ " ") with (String " " (t +:+ " ")) in *.
      assert (Heq : " " +:+ Str.join " " (w :: y :: l) +:+ " "
                    = String " " (w +:+ String " " (Str.join " " (y :: l) +:+ " "))).
      { rewrite join_cons.
        change (" " +:+ (w +:+ " " +:+ Str.join " " (y :: l)) +:+ " ")
          with (String " " ((w +:+ String " " (Str.join " " (y :: l))) +:+ " ")).
        by rewrite append_assoc. }
      rewrite Heq, (contains_one_word t w _ Ht Hw).
      change (String " " (Str.join " " (y :: l) +:+ " "))
        with (" " +:+ Str.join " " (y :: l) +:+ " ").
      by rewrite IH.
Qed.

End Tokens.

Lemma all_chars_impl (p q : ascii -> bool) s :
  (forall c, p c = true -> q c = true) -> all_chars p s -> all_chars q s.
Proof.
  intros Hpq. induction s as [|c s IH]; [done|].
  intros [Hc Hs]. split; [by apply Hpq|by apply IH].
Qed.

(** X16. The expressions of the builder go by the tokens of the attribute:
    when the node type and the attribute are names, and the target is not
    empty and has no space and no double quote, an element satisfies the
    node test and the predicate exactly when it has the tag asked for and
    the target is one of the words of the value of its attribute, the words
    being what white space separates; an attribute that is absent has no
    word. *)
Theorem attribute_has_target node_type attribute target e :
  is_name node_type ->
  is_name attribute ->
  target <> "" ->
  all_chars is_target_char target ->
  has_token node_type attribute target e = true
  <-> tag e = Some node_type
      /\ target ∈ Str.xml_words_go None (default "" (attrib e !! attribute)).
Proof.
  intros _ _ Hne Ht. unfold has_token, Str.normalize_space.
  rewrite andb_true_iff, bool_decide_eq_true.
  rewrite (contains_words target _ Hne); [done| |by apply xml_words_free].
  apply (all_chars_impl is_target_char); [|done].
  intros c Hc. unfold is_target_char in Hc. by apply andb_true_iff in Hc as [? _].
Qed.

Lemma attribute_has_target_witness :
  has_token "div" "class" "text"
    (Page.elem "div" [("class", "actions text-muted")] None [] None) = true
  <-> tag (Page.elem "div" [("class", "actions text-muted")] None [] None)
      = Some "div"
      /\ "text" ∈ Str.xml_words_go None
           (default "" (attrib (Page.elem "div"
                                  [("class", "actions text-muted")] None []
                                  None) !! "class")).
Proof.
  apply (attribute_has_target "div" "class" "text"
           (Page.elem "div" [("class", "actions text-muted")] None [] None));
    [repeat split | repeat split | discriminate | repeat split].
Defined.

(** * Readings that fail, and readings that do not *)

(** ** A rating whose user score cannot be read *)

Lemma rating_of_unreadable n m rest :
  rating_results n = m :: rest ->
  (getprevious m ≫= (fun node => text (element node)))
    ≫= (fun t => Str.to_int (Str.strip t)) = None
  \/ text (element m) = None ->
  rating_of n
  = Raise (match getprevious m ≫= (fun node => text (element node)) with
           | None => AttributeError
           | Some t => match Str.to_int (Str.strip t) with
                       | None => ValueError
                       | Some _ => TypeError
                       end
           end).
Proof.
  intros Hres Hbad. unfold rating_of. rewrite Hres. cbv beta iota.
  destruct (getprevious m ≫= (fun node => text (element node))) as [t|];
    [|done]. simpl in Hbad. run_monad.
  destruct (Str.to_int (Str.strip t)) as [u|]; [|done].
  destruct Hbad as [Hbad| ->]; [discriminate|done].
Qed.

Lemma extract_rating_raises build sl tid tn tu single n w e :
  rating_of n = Raise e ->
  is_ok (parse_raw_item_to_imdb_user_review build sl tid tn tu single n w).1
  = false
  /\ forall d w1,
       date_of n w = (Ok d, w1) ->
       parse_raw_item_to_imdb_user_review build sl tid tn tu single n w
       = (Raise e, w1).
Proof.
  intros Hrt. rewrite extract_stages. pose proof (feedback_of_ok n) as Hfb.
  split.
  - destruct (date_of n w) as [[d|e'] w1]; [|done].
    unfold fields_of. run_monad. destruct (feedback_of n); [|done].
    by rewrite Hrt.
  - intros d w1 ->. unfold fields_of. run_monad.
    destruct (feedback_of n); [|done]. by rewrite Hrt.
Qed.

(** C2. The pair of ratings is not cleared when the user rating is the
    value that is missing or unreadable: for a container with a point-scale
    node, when no node comes before that node or the node before it has no
    text, when that text does not read as an integer, or when the point-scale
    node has no text, the field extractor raises before it reaches the step
    that clears both, and produces no record; with the date read, the
    exception is [AttributeError], [ValueError] or [TypeError] in that
    order. *)
Theorem unreadable_user_rating_raises build sl tid tn tu single n w m rest :
  rating_results n = m :: rest ->
  (getprevious m ≫= (fun node => text (element node)))
    ≫= (fun t => Str.to_int (Str.strip t)) = None
  \/ text (element m) = None ->
  is_ok (parse_raw_item_to_imdb_user_review build sl tid tn tu single n w).1
  = false
  /\ forall d w1,
       date_of n w = (Ok d, w1) ->
       parse_raw_item_to_imdb_user_review build sl tid tn tu single n w
       = (Raise (match getprevious m ≫= (fun node => text (element node)) with
                 | None => AttributeError
                 | Some t => match Str.to_int (Str.strip t) with
                             | None => ValueError
                             | Some _ => TypeError
                             end
                 end), w1).
Proof.
  intros Hres Hbad. apply extract_rating_raises.
  by apply (rating_of_unreadable n m rest).
Qed.

Lemma unreadable_user_rating_raises_witness :
  is_ok (parse_raw_item_to_imdb_user_review Page.cut_query Page.no_locale
           "tt1" None None false (Page.node_in_page Page.unparsable_score)
           (Page.world "pt_BR.UTF-8")).1
  = false
  /\ parse_raw_item_to_imdb_user_review Page.cut_query Page.no_locale
       "tt1" None None false (Page.node_in_page Page.unparsable_score)
       (Page.world "pt_BR.UTF-8")
     = (Raise ValueError, Page.world "C").
Proof.
  destruct (unreadable_user_rating_raises Page.cut_query Page.no_locale
              "tt1" None None false (Page.node_in_page Page.unparsable_score)
              (Page.world "pt_BR.UTF-8")
              {| document := Page.page [Page.unparsable_score] [];
                 before := [Page.score "N/A"; Page.star];
                 element := Page.point_scale "/10" |}
              [] eq_refl (or_introl eq_refl)) as [Hno Hexn].
  split; [exact Hno|].
  exact (Hexn (Some "2020-03-12") (Page.world "C") eq_refl).
Defined.

(** ** Pages that are read, and pages that are not *)











(** ** The helpful phrase *)

(** X1. The block of the helpful phrase never raises: whenever the date,
    the rating and the author of a container are read, the field extractor
    gives a record. In every record it gives, the total and the helpful
    feedback are null together, and they are null exactly when the actions
    block has no text or its text does not match the helpful phrase;
    otherwise they are the two numbers of the phrase, read with their commas
    removed, and neither is negative. *)
Theorem feedback_pair_read_together build sl tid tn tu single n w :
  (forall d w1 rt au,
     date_of n w = (Ok d, w1) ->
     rating_of n = Ok rt ->
     author_of build n = Ok au ->
     exists r,
       parse_raw_item_to_imdb_user_review build sl tid tn tu single n w
       = (Ok r, w1))
  /\ (forall r w',
        parse_raw_item_to_imdb_user_review build sl tid tn tu single n w
        = (Ok r, w') ->
        (total_feedback r = None <-> helpful_feedback r = None)
        /\ (total_feedback r = None <->
            found_helpful_results n = []
            \/ Re.match_ FOUND_HELPFUL_REGEX
                 (Str.join "" (found_helpful_results n)) = None)
        /\ (forall v, total_feedback r = Some v -> 0 <= v)
        /\ (forall v, helpful_feedback r = Some v -> 0 <= v)
        /\ (forall d rest,
              found_helpful_results n <> [] ->
              Re.match_ FOUND_HELPFUL_REGEX
                (Str.join "" (found_helpful_results n)) = Some (d, rest) ->
              is_Some (total_feedback r)
              /\ total_feedback r
                 = d !! "total" ≫= (fun t => Str.to_int (Str.remove "," t))
              /\ helpful_feedback r
                 = d !! "helpful" ≫= (fun t => Str.to_int (Str.remove "," t)))).
Proof.
  split.
  - intros d w1 rt au Hd Hrt Hau. rewrite extract_stages, Hd.
    unfold fields_of. run_monad. pose proof (feedback_of_ok n) as Hfb.
    destruct (feedback_of n) as [fb|]; [|done]. rewrite Hrt, Hau. by eexists.
  - intros r w' (dt & fb & rt & au & _ & Hfb & _ & _ & ->)%extract_ok. simpl.
    apply feedback_of_cases in Hfb
      as [[-> Hno]|(d & rest & t & h & Hne & Hm & Ht & Hh & -> & Ht0 & Hh0)];
      simpl.
    + split; [done|]. split; [done|]. split; [done|]. split; [done|].
      intros d rest Hne Hm. destruct Hno as [Hno|Hno]; congruence.
    + split; [done|]. split.
      { split; [done|]. intros [Hnil|Hnone]; congruence. }
      split; [by intros v [= <-]|]. split; [by intros v [= <-]|].
      intros d' rest' _ Hm'. rewrite Hm in Hm'. injection Hm' as <- <-.
      by rewrite Ht, Hh.
Qed.

Lemma feedback_pair_read_together_witness :
  (total_feedback (Page.rv001_record "tt1" None None false "/user/ur001/") = None
   <-> helpful_feedback (Page.rv001_record "tt1" None None false "/user/ur001/")
       = None)
  /\ (total_feedback (Page.rv001_record "tt1" None None false "/user/ur001/") = None
      <-> found_helpful_results (Page.node_in_page Page.rv001) = []
          \/ Re.match_ FOUND_HELPFUL_REGEX
               (Str.join "" (found_helpful_results (Page.node_in_page Page.rv001)))
             = None).
Proof.
  destruct (proj2 (feedback_pair_read_together Page.cut_query Page.no_locale
                     "tt1" None None false (Page.node_in_page Page.rv001)
                     (Page.world "C"))
              (Page.rv001_record "tt1" None None false "/user/ur001/")
              (in_C_locale (Page.world "C"))
              (rv001_extracted Page.cut_query Page.no_locale "tt1" None None
                 false (Page.world "C") "/user/ur001/" eq_refl))
    as (Hpair & Hnone & _).
  split; [exact Hpair|exact Hnone].
Defined.
